(** * Internship recommender: ranking core and request handling

    A shallow embedding of [recommender/engine.py]
    ([RecommendationEngine.find_recommendations]) and of
    [recommender/views.py] ([RecommendInternships.get]).

    Conventions of the embedding.
    - Python [str] values are [string]s whose characters are the code
      points 0..255; [lower] and [strip] follow Python on that range.
    - Scores ([numpy]/Python floats in the source) are exact rationals
      [Q]; the properties below depend on the order of scores and on the
      boost count only.
    - The sentence-embedding model and the FAISS index are external: the
      composition "encode, normalise, search the top 200" is the field
      [search] of the engine, from the query text to the list of
      (similarity, position) pairs.
    - An uncaught Python exception is the left summand of [Result]. *)

From Stdlib Require Import Ascii String QArith Lqa Sorted Permutation.
From stdpp Require Import gmap strings list.

Local Open Scope string_scope.

(** ** Python string primitives *)

Module PyStr.

(** [str.isspace] on one character, for code points below 256. *)
Definition is_space (c : ascii) : bool :=
  let n := N_of_ascii c in
  ((9 <=? n) && (n <=? 13) || (28 <=? n) && (n <=? 32)
   || (n =? 133) || (n =? 160))%N.

(** [str.lower] on one character, for code points below 256. *)
Definition lower_char (c : ascii) : ascii :=
  let n := N_of_ascii c in
  if ((65 <=? n) && (n <=? 90)
      || (192 <=? n) && (n <=? 222) && negb (n =? 215))%N
  then ascii_of_N (n + 32) else c.

Fixpoint lower (s : string) : string :=
  match s with
  | EmptyString => EmptyString
  | String c s' => String (lower_char c) (lower s')
  end.

Fixpoint lstrip (s : string) : string :=
  match s with
  | EmptyString => EmptyString
  | String c s' => if is_space c then lstrip s' else s
  end.

Fixpoint rstrip (s : string) : string :=
  match s with
  | EmptyString => EmptyString
  | String c s' =>
      match rstrip s' with
      | EmptyString => if is_space c then EmptyString else String c EmptyString
      | r => String c r
      end
  end.

(** [s.strip()] *)
Definition strip (s : string) : string := rstrip (lstrip s).

(** [s.split(sep)] for a one-character separator: never the empty list. *)
Fixpoint split (sep : ascii) (s : string) : list string :=
  match s with
  | EmptyString => [EmptyString]
  | String c s' =>
      if Ascii.eqb c sep then EmptyString :: split sep s'
      else match split sep s' with
           | t :: ts => String c t :: ts
           | [] => [String c EmptyString]
           end
  end.

Fixpoint starts_with (p s : string) : bool :=
  match p, s with
  | EmptyString, _ => true
  | String a p', String b s' => Ascii.eqb a b && starts_with p' s'
  | String _ _, EmptyString => false
  end.

(** [sub in s] on strings: substring containment. *)
Fixpoint contains (sub s : string) : bool :=
  starts_with sub s ||
  match s with
  | EmptyString => false
  | String _ s' => contains sub s'
  end.

(** Truth value of a string: [if s:]. *)
Definition truthy (s : string) : bool :=
  match s with EmptyString => false | _ => true end.

End PyStr.

(** ** Data model *)

(** One row of [internships.csv], as [csv.DictReader] yields it with the
    field names [id, Title, Locations, Skills, Description]; every row has
    its five columns, so each field is a string. *)
Record Internship := mkInternship {
  internship_id : string;
  Title : string;
  Locations : string;
  Skills : string;
  Description : string
}.

(** An element of [all_top_candidates]:
    [{'final_score': ..., 'internship': ...}]. *)
Record ScoredCandidate := mkCandidate {
  final_score : Q;
  internship : Internship
}.

(** The assets the engine loads once at start-up. [search text] stands for
    [index.search(normalize_L2(model.encode([text])), 200)], zipped as
    [(distances[0][i], indices[0][i])]. *)
Record RecommendationEngine := mkEngine {
  search : string -> list (Q * Z);
  index_to_id_map : gmap Z string;
  all_internships_map : gmap string Internship
}.

(** ** Exceptions *)

Inductive PyExn :=
| KeyError_position (idx : Z)   (* [self.index_to_id_map[idx]] *)
| KeyError_id (iid : string).   (* [self.all_internships_map[internship_id]] *)

Definition Result (A : Type) : Type := PyExn + A.

Definition ret {A} (a : A) : Result A := inr a.
Definition raise {A} (e : PyExn) : Result A := inl e.
Definition bind {A B} (m : Result A) (k : A -> Result B) : Result B :=
  match m with
  | inl e => inl e
  | inr a => k a
  end.

Notation "x <-- m ;; k" := (bind m (fun x => k))
  (at level 100, m at next level, right associativity).

(** [d[k]] on a dict: the value, or [KeyError]. *)
Definition getitem {K V} `{Countable K} (err : K -> PyExn)
    (d : gmap K V) (k : K) : Result V :=
  match d !! k with
  | Some v => ret v
  | None => raise (err k)
  end.

(** ** list.sort(key=..., reverse=True) *)

Section StableSort.
Context {A : Type} (key : A -> Q).

(** [x] comes from in front of [l] in the unsorted list: it stays in
    front of the elements whose key is not larger than its own. *)
Fixpoint insert_desc (x : A) (l : list A) : list A :=
  match l with
  | [] => [x]
  | y :: l' =>
      if Qle_bool (key y) (key x) then x :: l
      else y :: insert_desc x l'
  end.

Definition sort_desc (l : list A) : list A := foldr insert_desc [] l.

(** Descending order of keys. *)
Definition desc (x y : A) : Prop := (key y <= key x)%Q.
End StableSort.

(** ** engine.py: find_recommendations *)

Definition student_text (skills interest : string) : string :=
  if PyStr.truthy interest then
    "A student with key skills in: " +:+ skills +:+
    ". They are interested in an internship where they can " +:+
    interest +:+ "."
  else
    "A student with key skills in: " +:+ skills +:+ ".".

(** [[s.strip().lower() for s in skills.split(',')]] *)
Definition user_explicit_skills (skills : string) : list string :=
  map (fun s => PyStr.lower (PyStr.strip s)) (PyStr.split "," skills).

(** The inner [for skill in user_explicit_skills] loop, from 0. *)
Definition skill_boost_score (tokens : list string)
    (internship_skills_text : string) : nat :=
  fold_left
    (fun score skill =>
       if PyStr.contains skill internship_skills_text then score + 1
       else score)
    tokens 0.

Definition Qofnat (n : nat) : Q := inject_Z (Z.of_nat n).

(** [skill_boost_score / len(user_explicit_skills)
     if user_explicit_skills else 0] *)
Definition normalized_boost (tokens : list string)
    (internship_skills_text : string) : Q :=
  match tokens with
  | [] => 0
  | _ :: _ =>
      Qofnat (skill_boost_score tokens internship_skills_text)
      / Qofnat (length tokens)
  end.

Definition fuse (sem_score boost : Q) : Q :=
  (7 # 10) * sem_score + (3 # 10) * boost.

(** The body of the [for i, idx in enumerate(indices[0])] loop, with
    [all_top_candidates] as the accumulator. *)
Fixpoint score_loop (eng : RecommendationEngine) (tokens : list string)
    (all_top_candidates : list ScoredCandidate) (hits : list (Q * Z))
    : Result (list ScoredCandidate) :=
  match hits with
  | [] => ret all_top_candidates
  | (sem_score, idx) :: rest =>
      if (idx =? -1)%Z then score_loop eng tokens all_top_candidates rest
      else
        iid <-- getitem KeyError_position (index_to_id_map eng) idx ;;
        it <-- getitem KeyError_id (all_internships_map eng) iid ;;
        let internship_skills_text := PyStr.lower (Skills it) in
        let boost := normalized_boost tokens internship_skills_text in
        score_loop eng tokens
          (all_top_candidates ++ [mkCandidate (fuse sem_score boost) it])
          rest
  end.

(** [rec['internship']['Locations'].lower().strip() == location.lower()] *)
Definition location_matches (stored location : string) : bool :=
  String.eqb (PyStr.strip (PyStr.lower stored)) (PyStr.lower location).

Definition find_recommendations (eng : RecommendationEngine)
    (skills location interest : string)
    : Result (list ScoredCandidate * list ScoredCandidate) :=
  let hits := search eng (student_text skills interest) in
  let tokens := user_explicit_skills skills in
  cands <-- score_loop eng tokens [] hits ;;
  let all_top_candidates := sort_desc final_score cands in
  let recommendations_in_location :=
    List.filter
      (fun rec => location_matches (Locations (internship rec)) location)
      all_top_candidates in
  ret (recommendations_in_location, all_top_candidates).

(** ** views.py: RecommendInternships.get *)

(** The dict handed to [Response]: either [{"error": ...}] or
    [{"message": ..., "recommendations": serializer.data}]. The serializer
    copies [final_score] and the five fields of each internship, so the
    serialized list is the list of candidates itself. *)
Inductive ResponseData :=
| ErrorData (error : string)
| RecommendationData (message : string)
    (recommendations : list ScoredCandidate).

Record Response := mkResponse {
  status : Z;
  data : ResponseData
}.

(** What a call of the view ends in: a response, or an exception that
    leaves the view uncaught (the framework answers it as a server error). *)
Inductive Outcome :=
| Returned (r : Response)
| Uncaught (e : PyExn).

Definition MINIMUM_SCORE_THRESHOLD : Q := 55 # 100.
Definition FALLBACK_COUNT : nat := 3.

Definition clears_threshold (rec : ScoredCandidate) : bool :=
  Qle_bool MINIMUM_SCORE_THRESHOLD (final_score rec).

(** Truth value of a list: [if l:]. *)
Definition nonempty {A} (l : list A) : bool :=
  match l with [] => false | _ :: _ => true end.

Definition msg_in_location (location : string) : string :=
  "Top matches in your preferred location: " +:+ location.
Definition msg_other_locations (location : string) : string :=
  "No ideal matches found in " +:+ location +:+
  ". Here are the best matches from other locations:".
Definition msg_closest : string :=
  "No ideal matches were found anywhere. Here are the top 3 closest skill matches from all locations:".

(** Lines 75 to 92 of the view: thresholding and the three tiers. *)
Definition select_results (location : string)
    (in_location_recs global_recs : list ScoredCandidate)
    : string * list ScoredCandidate :=
  let good_in_location := List.filter clears_threshold in_location_recs in
  let good_global := List.filter clears_threshold global_recs in
  if nonempty good_in_location then
    (msg_in_location location, firstn 5 good_in_location)
  else if nonempty good_global then
    (msg_other_locations location, firstn FALLBACK_COUNT good_global)
  else
    (msg_closest, firstn FALLBACK_COUNT global_recs).

(** [request.query_params.get(name, '')] *)
Definition query_param (query_params : gmap string string) (name : string)
    : string :=
  default "" (query_params !! name).

(** [f"rec_{skills}_{location}_{interest}"] *)
Definition cache_key (skills location interest : string) : string :=
  "rec_" +:+ skills +:+ "_" +:+ location +:+ "_" +:+ interest.

Definition missing_params_error : ResponseData :=
  ErrorData "Please provide both 'skills' and 'location' parameters.".

(** The view, with the cache as explicit state. A cached value is a
    non-empty dict, hence true in [if cached_result:]. *)
Definition get (eng : RecommendationEngine)
    (cache : gmap string ResponseData) (query_params : gmap string string)
    : Outcome * gmap string ResponseData :=
  let skills := query_param query_params "skills" in
  let location := query_param query_params "location" in
  let interest := query_param query_params "interest" in
  if negb (PyStr.truthy skills) || negb (PyStr.truthy location) then
    (Returned (mkResponse 400 missing_params_error), cache)
  else
    let key := cache_key skills location interest in
    match cache !! key with
    | Some cached_result => (Returned (mkResponse 200 cached_result), cache)
    | None =>
        match find_recommendations eng skills location interest with
        | inl e => (Uncaught e, cache)
        | inr (in_location_recs, global_recs) =>
            let '(message, results) :=
              select_results location in_location_recs global_recs in
            let final_response_data := RecommendationData message results in
            (Returned (mkResponse 200 final_response_data),
             <[key := final_response_data]> cache)
        end
    end.

(** ** The description's wording of the lexical boost *)

(** Split the user's skills on commas, trim and lowercase each token, count
    the tokens that occur in the lowercased internship skills, divide by
    the number of tokens. *)
Definition spec_normalized_boost (skills internship_skills : string) : Q :=
  let tokens :=
    map (fun s => PyStr.lower (PyStr.strip s)) (PyStr.split "," skills) in
  let text := PyStr.lower internship_skills in
  Qofnat (length (List.filter (fun t => PyStr.contains t text) tokens))
  / Qofnat (length tokens).

(** ** A small corpus to run the definitions on *)

Module Demo.

Definition data_intern : Internship :=
  mkInternship "1" "Data Intern" "remote" "python, sql" "analyze data".
Definition web_intern : Internship :=
  mkInternship "2" "Web Intern" " Pune " "JavaScript, HTML" "build pages".
Definition ml_intern : Internship :=
  mkInternship "3" "ML Intern" "Remote" "Python3, PyTorch" "train models".

Definition corpus : gmap string Internship :=
  <["1" := data_intern]> (<["2" := web_intern]> (<["3" := ml_intern]> ∅)).

Definition id_map : gmap Z string :=
  <[0%Z := "1"]> (<[1%Z := "2"]> (<[2%Z := "3"]> ∅)).

(** Three hits in descending similarity, padded with the sentinel. *)
Definition hits : list (Q * Z) :=
  [(8 # 10, 2%Z); (6 # 10, 0%Z); (5 # 10, 1%Z); (0%Q, (-1)%Z)].

Definition engine : RecommendationEngine :=
  mkEngine (fun _ => hits) id_map corpus.

(** The same index over a corpus that lost record "3". *)
Definition stale_engine : RecommendationEngine :=
  mkEngine (fun _ => hits) id_map (delete "3" corpus).

Definition params (skills location : string) : gmap string string :=
  <["skills" := skills]> (<["location" := location]> ∅).

End Demo.

(** ** Auxiliary views of the scoring loop *)

(** The hydration half of the loop alone: each position that is not the
    sentinel, through [index_to_id_map] and [all_internships_map], with its
    similarity kept; the first missing key raises. *)
Fixpoint resolve_hits (eng : RecommendationEngine) (hits : list (Q * Z))
    : Result (list (Q * Internship)) :=
  match hits with
  | [] => ret []
  | (sem_score, idx) :: rest =>
      if (idx =? -1)%Z then resolve_hits eng rest
      else
        iid <-- getitem KeyError_position (index_to_id_map eng) idx ;;
        it <-- getitem KeyError_id (all_internships_map eng) iid ;;
        r <-- resolve_hits eng rest ;;
        ret ((sem_score, it) :: r)
  end.

(** The scoring half alone, on one hydrated hit. *)
Definition score_candidate (tokens : list string) (h : Q * Internship)
    : ScoredCandidate :=
  mkCandidate
    (fuse (fst h) (normalized_boost tokens (PyStr.lower (Skills (snd h)))))
    (snd h).

(** Every position the index returns for [text], the sentinel apart, is in
    the position map, and its identifier is in the corpus: the persisted
    artifacts and the corpus are in sync. *)
Definition in_sync (eng : RecommendationEngine) (text : string) : Prop :=
  forall sem idx, In (sem, idx) (search eng text) -> idx <> (-1)%Z ->
    exists iid it, index_to_id_map eng !! idx = Some iid
                   /\ all_internships_map eng !! iid = Some it.

(** The index returns at least one real position for [text], as a flat
    index over a non-empty corpus does. *)
Definition has_hit (eng : RecommendationEngine) (text : string) : Prop :=
  exists sem idx, In (sem, idx) (search eng text) /\ idx <> (-1)%Z.

(** The key an exception names is absent from the dict it was looked up
    in. *)
Definition missing_key (eng : RecommendationEngine) (e : PyExn) : Prop :=
  match e with
  | KeyError_position idx => index_to_id_map eng !! idx = None
  | KeyError_id iid => all_internships_map eng !! iid = None
  end.

(** Every cached response carries at least one recommendation. *)
Definition cache_nonempty (cache : gmap string ResponseData) : Prop :=
  forall k d, cache !! k = Some d ->
    exists message recs, d = RecommendationData message recs /\ recs <> [].

(** ** Further string primitives *)

Module PySlice.

(** [s[n:]] *)
Fixpoint drop (n : nat) (s : string) : string :=
  match n, s with
  | O, _ => s
  | S _, EmptyString => EmptyString
  | S n', String _ s' => drop n' s'
  end.

(** [s[:n]] for [n >= 0] *)
Fixpoint take (n : nat) (s : string) : string :=
  match n, s with
  | O, _ => EmptyString
  | S _, EmptyString => EmptyString
  | S n', String c s' => String c (take n' s')
  end.

(** [s[:-n]]: all but the last [n] characters, nothing when [s] is
    shorter. *)
Definition drop_last (n : nat) (s : string) : string :=
  take (String.length s - n) s.

(** [s.endswith(suf)] *)
Fixpoint ends_with (suf s : string) : bool :=
  String.eqb s suf ||
  match s with
  | EmptyString => false
  | String _ s' => ends_with suf s'
  end.

End PySlice.

(** ** engine.py: calculate_keyword_score *)

(** [x or ""] for an argument that may be [None]. *)
Definition or_empty (x : option string) : string :=
  match x with
  | Some s => if PyStr.truthy s then s else ""
  | None => ""
  end.

(** [set([skill.strip().lower() for skill in s.split(',')])] *)
Definition skill_set (s : string) : gset string :=
  list_to_set (map (fun t => PyStr.lower (PyStr.strip t)) (PyStr.split "," s)).

Definition calculate_keyword_score (student_skills : string)
    (internship_skills : option string) : Q :=
  let student_set := skill_set student_skills in
  let internship_set := skill_set (or_empty internship_skills) in
  let intersection := student_set ∩ internship_set in
  let union := student_set ∪ internship_set in
  if decide (union = ∅) then 0
  else Qofnat (size intersection) / Qofnat (size union).

(** ** engine.py: the pure steps of get_analytics_for_internship *)

(** The row as the dict [csv.DictReader] builds, and [row.get(key, dflt)]. *)
Definition as_row (it : Internship) : gmap string string :=
  list_to_map
    [("id", internship_id it); ("Title", Title it);
     ("Locations", Locations it); ("Skills", Skills it);
     ("Description", Description it)].

Definition row_get (it : Internship) (key dflt : string) : string :=
  default dflt (as_row it !! key).

Definition newline : string := String (ascii_of_N 10) EmptyString.

(** [f"Title: {internship.get('Internship Title', '')}\nDescription:
    {internship.get('Internship Description', '')}"] *)
Definition internship_text (it : Internship) : string :=
  "Title: " +:+ row_get it "Internship Title" "" +:+ newline +:+
  "Description: " +:+ row_get it "Internship Description" "".

(** [internship_skills_set - user_skills_set] *)
Definition lacking_skills_set (it : Internship) (user_skills_str : string)
    : gset string :=
  let user_skills_set := skill_set user_skills_str in
  let internship_skills_set := skill_set (row_get it "Skills" "") in
  internship_skills_set ∖ user_skills_set.

(** The clean-up of the generated text before [json.loads]: strip, drop a
    leading [```json], drop a trailing [```], strip again. *)
Definition clean_response (response_text : string) : string :=
  let cleaned_response := PyStr.strip response_text in
  let cleaned_response :=
    if PyStr.starts_with "```json" cleaned_response
    then PySlice.drop 7 cleaned_response else cleaned_response in
  let cleaned_response :=
    if PySlice.ends_with "```" cleaned_response
    then PySlice.drop_last 3 cleaned_response else cleaned_response in
  PyStr.strip cleaned_response.

(** ** engine.py: RecommendationEngine.__init__, and create_faiss_index.py *)

(** [for row in reader: self.all_internships_map[row['id']] = row] *)
Definition load_internships (rows : list Internship)
    : gmap string Internship :=
  fold_left (fun m row => <[internship_id row := row]> m) rows ∅.

(** [enumerate(l)] *)
Definition enumerate {A} (l : list A) : list (Z * A) :=
  combine (map Z.of_nat (seq 0 (length l))) l.

(** [{i: internship['id'] for i, internship in enumerate(all_internships)}] *)
Definition build_index_to_id_map (all_internships : list Internship)
    : gmap Z string :=
  fold_left (fun m p => <[fst p := internship_id (snd p)]> m)
    (enumerate all_internships) ∅.

(** The engine that serves the artifacts built from [rows], over the
    corpus loaded from the same [rows]. *)
Definition engine_of (search : string -> list (Q * Z))
    (rows : list Internship) : RecommendationEngine :=
  mkEngine search (build_index_to_id_map rows) (load_internships rows).

(** [create_internship_text]: the text that is embedded for a record. *)
Definition create_internship_text (it : Internship) : string :=
  let title := row_get it "Title" "" in
  let skills := row_get it "Skills" "" in
  let description := row_get it "Description" "" in
  "Internship Title: " +:+ title +:+ ". Description: " +:+ description +:+
  ". Required skills: " +:+ skills +:+ ".".

(** ** views.py: InternshipAnalyticsView.get *)

Module InternshipAnalyticsView.

(** What [get_analytics_for_internship] hands back: a dict with an
    ["error"] key (its own failures are caught inside it and returned so),
    or the parsed roadmap. *)
Inductive AnalyticsResult (P : Type) :=
| AnalyticsError (error : string)
| AnalyticsData (payload : P).
Arguments AnalyticsError {P} error.
Arguments AnalyticsData {P} payload.

Inductive Body (P : Type) :=
| ErrorBody (error : string)
| DataBody (payload : P).
Arguments ErrorBody {P} error.
Arguments DataBody {P} payload.

Definition get {P : Type} (eng : RecommendationEngine)
    (get_analytics_for_internship : Internship -> string -> AnalyticsResult P)
    (query_params : gmap string string) : Z * Body P :=
  let internship_id := query_param query_params "id" in
  let user_skills := query_param query_params "skills" in
  if negb (PyStr.truthy internship_id) || negb (PyStr.truthy user_skills)
  then (400%Z, ErrorBody "Internship ID and user skills are required.")
  else
    match all_internships_map eng !! internship_id with
    | None => (404%Z, ErrorBody "Internship not found.")
    | Some internship =>
        match get_analytics_for_internship internship user_skills with
        | AnalyticsError e => (500%Z, ErrorBody e)
        | AnalyticsData p => (200%Z, DataBody p)
        end
    end.

End InternshipAnalyticsView.

(** A pair the index returned that is not the padding [-1]. *)
Definition is_hit (h : Q * Z) : bool := negb (snd h =? -1)%Z.

(** ** Running the primitives *)

Example lower_ex : PyStr.lower " ReMoTe,Z[@" = " remote,z[@".
Proof. reflexivity. Qed.
Example strip_ex : PyStr.strip "  a b   " = "a b".
Proof. reflexivity. Qed.
Example split_ex1 : PyStr.split "," "" = [""].
Proof. reflexivity. Qed.
Example split_ex2 : PyStr.split "," "a, b,,c," = ["a"; " b"; ""; "c"; ""].
Proof. reflexivity. Qed.
Example contains_ex1 : PyStr.contains "python" "sql, python3" = true.
Proof. reflexivity. Qed.
Example contains_ex2 : PyStr.contains "java" "sql, python3" = false.
Proof. reflexivity. Qed.

(** ** Lemmas on the string primitives *)

Module PyStrFacts.
Import PyStr.

Lemma split_nonempty sep s : split sep s <> [].
Proof.
  destruct s as [|c s]; simpl; [discriminate|].
  destruct (Ascii.eqb c sep); [discriminate|].
  destruct (split sep s); discriminate.
Qed.

Lemma starts_with_spec p s :
  starts_with p s = true <-> exists post, s = p +:+ post.
Proof.
  revert s; induction p as [|a p IH]; intros s; simpl.
  - split; [intros _; exists s; reflexivity | reflexivity].
  - destruct s as [|b s].
    + split; [discriminate | intros [post H]; discriminate].
    + rewrite andb_true_iff, IH. split.
      * intros [Hab [post ->]]. apply Ascii.eqb_eq in Hab. subst b.
        exists post. reflexivity.
      * intros [post H]. injection H as -> ->. split.
        -- apply Ascii.eqb_refl.
        -- exists post. reflexivity.
Qed.

(** [contains] is Python's [in]: some prefix and suffix surround [sub]. *)
Lemma contains_spec sub s :
  contains sub s = true <-> exists pre post, s = pre +:+ sub +:+ post.
Proof.
  induction s as [|c s IH]; simpl.
  - rewrite orb_false_r, starts_with_spec. split.
    + intros [post H]. exists "", post. exact H.
    + intros [pre [post H]]. destruct pre; [|discriminate].
      exists post. exact H.
  - rewrite orb_true_iff, starts_with_spec, IH. split.
    + intros [[post H] | [pre [post H]]].
      * exists "", post. exact H.
      * exists (String c pre), post. simpl. rewrite H. reflexivity.
    + intros [pre [post H]]. destruct pre as [|d pre].
      * left. exists post. exact H.
      * right. simpl in H. injection H as -> ->. exists pre, post.
        reflexivity.
Qed.

Lemma contains_empty s : contains "" s = true.
Proof. destruct s; reflexivity. Qed.

End PyStrFacts.

(** ** Lemmas on rational scores *)

Lemma Qle_bool_false x y : Qle_bool x y = false <-> (y < x)%Q.
Proof.
  split.
  - intros H. apply Qnot_le_lt. intros Hle.
    apply Qle_bool_iff in Hle. congruence.
  - intros H. destruct (Qle_bool x y) eqn:E; [|reflexivity].
    apply Qle_bool_iff in E. exfalso. exact (Qlt_not_le _ _ H E).
Qed.

Lemma Qofnat_le n m : n <= m -> (Qofnat n <= Qofnat m)%Q.
Proof.
  intros H. unfold Qofnat. rewrite <- Zle_Qle. lia.
Qed.

Lemma Qofnat_pos n : 0 < n -> (0 < Qofnat n)%Q.
Proof.
  intros H. unfold Qofnat. replace 0%Q with (inject_Z 0) by reflexivity.
  rewrite <- Zlt_Qlt. lia.
Qed.

(** ** Lemmas on the stable descending sort *)

Section StableSortFacts.
Context {A : Type} (key : A -> Q).

Lemma insert_desc_perm x l : Permutation (insert_desc key x l) (x :: l).
Proof.
  induction l as [|y l IH]; simpl; [reflexivity|].
  destruct (Qle_bool (key y) (key x)); [reflexivity|].
  rewrite IH. apply perm_swap.
Qed.

Lemma sort_desc_perm l : Permutation (sort_desc key l) l.
Proof.
  induction l as [|x l IH]; simpl; [reflexivity|].
  rewrite insert_desc_perm. apply perm_skip. exact IH.
Qed.

Lemma insert_desc_sorted x l :
  StronglySorted (desc key) l ->
  StronglySorted (desc key) (insert_desc key x l).
Proof.
  induction 1 as [|y l Hs IH Hall]; simpl.
  - constructor; constructor.
  - destruct (Qle_bool (key y) (key x)) eqn:E.
    + apply Qle_bool_iff in E. constructor.
      * constructor; assumption.
      * constructor; [exact E|].
        eapply List.Forall_impl; [|exact Hall].
        intros z Hz. unfold desc in *. eapply Qle_trans; eassumption.
    + apply Qle_bool_false in E. constructor; [exact IH|].
      eapply Permutation_Forall.
      * symmetry. apply insert_desc_perm.
      * constructor; [apply Qlt_le_weak; exact E | exact Hall].
Qed.

Lemma sort_desc_sorted l : StronglySorted (desc key) (sort_desc key l).
Proof.
  induction l as [|x l IH]; simpl; [constructor|].
  apply insert_desc_sorted. exact IH.
Qed.

(** Insertion does not disturb the candidates of any one score. *)
Lemma insert_desc_stable v x l :
  List.filter (fun a => Qeq_bool (key a) v) (insert_desc key x l)
  = List.filter (fun a => Qeq_bool (key a) v) (x :: l).
Proof.
  induction l as [|y l IH]; [reflexivity|].
  cbn [insert_desc].
  destruct (Qle_bool (key y) (key x)) eqn:E; [reflexivity|].
  apply Qle_bool_false in E.
  cbn [List.filter] in *. rewrite IH.
  destruct (Qeq_bool (key x) v) eqn:Ex, (Qeq_bool (key y) v) eqn:Ey;
    try reflexivity.
  apply Qeq_bool_iff in Ex, Ey. exfalso.
  rewrite Ex, Ey in E. exact (Qlt_irrefl _ E).
Qed.

Lemma sort_desc_stable v l :
  List.filter (fun a => Qeq_bool (key a) v) (sort_desc key l)
  = List.filter (fun a => Qeq_bool (key a) v) l.
Proof.
  induction l as [|x l IH]; [reflexivity|].
  cbn [sort_desc foldr]. rewrite insert_desc_stable.
  cbn [List.filter]. fold (sort_desc key l). rewrite IH. reflexivity.
Qed.

Lemma sorted_filter (p : A -> bool) l :
  StronglySorted (desc key) l ->
  StronglySorted (desc key) (List.filter p l).
Proof.
  induction 1 as [|y l Hs IH Hall]; simpl; [constructor|].
  destruct (p y); [|exact IH].
  constructor; [exact IH|].
  apply List.Forall_forall. intros z Hz. apply filter_In in Hz.
  rewrite List.Forall_forall in Hall. apply Hall. tauto.
Qed.

Lemma sorted_firstn n l :
  StronglySorted (desc key) l ->
  StronglySorted (desc key) (firstn n l).
Proof.
  intros H. revert n. induction H as [|y l Hs IH Hall]; intros n.
  - rewrite firstn_nil. constructor.
  - destruct n as [|n]; simpl; [constructor|].
    constructor; [apply IH|].
    apply List.Forall_forall. intros z Hz.
    rewrite List.Forall_forall in Hall. apply Hall.
    rewrite <- (firstn_skipn n l). apply in_or_app. left. exact Hz.
Qed.
End StableSortFacts.

(** Sorting commutes with a relabelling that keeps the comparisons. *)
Lemma sort_desc_map {A B} (keyA : A -> Q) (keyB : B -> Q) (f : A -> B) l :
  (forall x y, Qle_bool (keyB (f y)) (keyB (f x))
               = Qle_bool (keyA y) (keyA x)) ->
  sort_desc keyB (map f l) = map f (sort_desc keyA l).
Proof.
  intros Hcmp. induction l as [|x l IH]; [reflexivity|].
  cbn [map sort_desc foldr]. fold (sort_desc keyB (map f l)).
  fold (sort_desc keyA l). rewrite IH.
  generalize (sort_desc keyA l) as s. clear IH.
  induction s as [|y s IHs]; [reflexivity|].
  cbn [map insert_desc]. rewrite Hcmp.
  destruct (Qle_bool (keyA y) (keyA x)); [reflexivity|].
  cbn [map]. rewrite IHs. reflexivity.
Qed.

(** ** Lemmas on the lexical boost *)

Lemma filter_none {A} (p : A -> bool) l :
  (forall x, In x l -> p x = false) -> List.filter p l = [].
Proof.
  induction l as [|x l IH]; intros H; [reflexivity|].
  simpl. rewrite (H x (or_introl eq_refl)). apply IH.
  intros y Hy. apply H. right. exact Hy.
Qed.

Lemma filter_all {A} (p : A -> bool) l :
  (forall x, In x l -> p x = true) -> List.filter p l = l.
Proof.
  induction l as [|x l IH]; intros H; [reflexivity|].
  simpl. rewrite (H x (or_introl eq_refl)). f_equal. apply IH.
  intros y Hy. apply H. right. exact Hy.
Qed.

Lemma skill_boost_score_acc tokens text n :
  fold_left
    (fun score skill =>
       if PyStr.contains skill text then score + 1 else score) tokens n
  = n + length (List.filter (fun t => PyStr.contains t text) tokens).
Proof.
  revert n; induction tokens as [|t tokens IH]; intros n; simpl; [lia|].
  rewrite IH. destruct (PyStr.contains t text); simpl; lia.
Qed.

Lemma skill_boost_score_count tokens text :
  skill_boost_score tokens text
  = length (List.filter (fun t => PyStr.contains t text) tokens).
Proof. unfold skill_boost_score. rewrite skill_boost_score_acc. lia. Qed.


Lemma user_explicit_skills_nonempty skills : user_explicit_skills skills <> [].
Proof.
  unfold user_explicit_skills. intros H.
  apply map_eq_nil in H. exact (PyStrFacts.split_nonempty _ _ H).
Qed.

Lemma normalized_boost_spec skills internship_skills :
  normalized_boost (user_explicit_skills skills)
    (PyStr.lower internship_skills)
  = spec_normalized_boost skills internship_skills.
Proof.
  unfold spec_normalized_boost. fold (user_explicit_skills skills).
  pose proof (user_explicit_skills_nonempty skills) as Hne.
  unfold normalized_boost.
  destruct (user_explicit_skills skills) as [|t ts] eqn:E; [congruence|].
  rewrite skill_boost_score_count. reflexivity.
Qed.


(** No token of the user occurs in the internship's skills: boost 0. *)
Lemma normalized_boost_no_match tokens text :
  (forall t, In t tokens -> PyStr.contains t text = false) ->
  (normalized_boost tokens text == 0)%Q.
Proof.
  intros H. unfold normalized_boost.
  destruct tokens as [|t ts]; [reflexivity|].
  rewrite skill_boost_score_count.
  replace (List.filter (fun t0 => PyStr.contains t0 text) (t :: ts))
    with (@nil string).
  - unfold Qdiv. apply Qmult_0_l.
  - symmetry. apply filter_none. exact H.
Qed.

(** Every token occurs: boost 1. *)
Lemma normalized_boost_all_match tokens text :
  tokens <> [] ->
  (forall t, In t tokens -> PyStr.contains t text = true) ->
  (normalized_boost tokens text == 1)%Q.
Proof.
  intros Hne H. unfold normalized_boost.
  destruct tokens as [|t ts]; [congruence|].
  rewrite skill_boost_score_count.
  replace (List.filter (fun t0 => PyStr.contains t0 text) (t :: ts))
    with (t :: ts).
  - apply Qmult_inv_r. intros Hz.
    pose proof (Qofnat_pos (length (t :: ts))) as Hp.
    rewrite Hz in Hp. apply (Qlt_irrefl 0). apply Hp. simpl. lia.
  - symmetry. apply filter_all. exact H.
Qed.

(** ** Lemmas on the scoring loop *)

Lemma score_loop_resolve eng tokens acc hits :
  score_loop eng tokens acc hits
  = (r <-- resolve_hits eng hits ;;
     ret (acc ++ map (score_candidate tokens) r)%list).
Proof.
  revert acc; induction hits as [|[sem idx] rest IH]; intros acc.
  - simpl. rewrite app_nil_r. reflexivity.
  - cbn [score_loop resolve_hits].
    destruct (idx =? -1)%Z; [apply IH|].
    destruct (getitem KeyError_position (index_to_id_map eng) idx)
      as [e|iid]; [reflexivity|].
    cbn [bind].
    destruct (getitem KeyError_id (all_internships_map eng) iid)
      as [e|it]; [reflexivity|].
    cbn [bind]. rewrite IH.
    destruct (resolve_hits eng rest) as [e|r]; [reflexivity|].
    cbn [bind ret map]. rewrite <- app_assoc. reflexivity.
Qed.

Lemma find_recommendations_unfold eng skills location interest :
  find_recommendations eng skills location interest
  = (r <-- resolve_hits eng (search eng (student_text skills interest)) ;;
     let all_top_candidates :=
       sort_desc final_score
         (map (score_candidate (user_explicit_skills skills)) r) in
     ret (List.filter
            (fun rec => location_matches (Locations (internship rec)) location)
            all_top_candidates,
          all_top_candidates)).
Proof.
  unfold find_recommendations. rewrite score_loop_resolve.
  destruct (resolve_hits eng _) as [e|r]; reflexivity.
Qed.

Lemma getitem_Some {K V} `{Countable K} err (d : gmap K V) k v :
  getitem err d k = inr v <-> d !! k = Some v.
Proof.
  unfold getitem, ret, raise. destruct (d !! k) as [w|]; split; intros E.
  - injection E as ->. reflexivity.
  - injection E as ->. reflexivity.
  - discriminate.
  - discriminate.
Qed.

(** What the hydrated list contains. *)
Lemma resolve_hits_In eng hits r sem it :
  resolve_hits eng hits = inr r ->
  (In (sem, it) r <->
   exists idx iid, In (sem, idx) hits /\ idx <> (-1)%Z
     /\ index_to_id_map eng !! idx = Some iid
     /\ all_internships_map eng !! iid = Some it).
Proof.
  revert r; induction hits as [|[s idx] rest IH]; intros r Hr.
  - injection Hr as <-. split; [intros []|intros (? & ? & [] & _)].
  - cbn [resolve_hits] in Hr.
    destruct (idx =? -1)%Z eqn:Es.
    + apply Z.eqb_eq in Es. rewrite (IH r Hr). split.
      * intros (i & iid & Hin & Hrest). exists i, iid.
        split; [right; exact Hin | exact Hrest].
      * intros (i & iid & [Heq | Hin] & Hne & Hrest).
        -- injection Heq as -> ->. congruence.
        -- exists i, iid. tauto.
    + apply Z.eqb_neq in Es.
      destruct (getitem KeyError_position (index_to_id_map eng) idx)
        as [e|iid0] eqn:E1; [discriminate|].
      cbn [bind] in Hr.
      destruct (getitem KeyError_id (all_internships_map eng) iid0)
        as [e|it0] eqn:E2; [discriminate|].
      cbn [bind] in Hr.
      destruct (resolve_hits eng rest) as [e|r0] eqn:E3; [discriminate|].
      injection Hr as <-.
      apply getitem_Some in E1, E2.
      specialize (IH r0 eq_refl). cbn [In]. rewrite IH. split.
      * intros [Heq | (i & iid & Hin & Hrest)].
        -- injection Heq as -> ->. exists idx, iid0. tauto.
        -- exists i, iid. tauto.
      * intros (i & iid & [Heq | Hin] & Hne & H1 & H2).
        -- injection Heq as -> ->. left. congruence.
        -- right. exists i, iid. tauto.
Qed.

(** In-sync artifacts: hydration succeeds. *)
Lemma resolve_hits_ok eng hits :
  (forall sem idx, In (sem, idx) hits -> idx <> (-1)%Z ->
     exists iid it, index_to_id_map eng !! idx = Some iid
                    /\ all_internships_map eng !! iid = Some it) ->
  exists r, resolve_hits eng hits = inr r.
Proof.
  induction hits as [|[s idx] rest IH]; intros Hsync.
  - exists []. reflexivity.
  - destruct IH as [r Hr].
    { intros sem i Hin. apply (Hsync sem). right. exact Hin. }
    cbn [resolve_hits]. destruct (idx =? -1)%Z eqn:Es; [eauto|].
    apply Z.eqb_neq in Es.
    destruct (Hsync s idx (or_introl eq_refl) Es) as (iid & it & H1 & H2).
    apply (getitem_Some KeyError_position) in H1.
    apply (getitem_Some KeyError_id) in H2.
    rewrite H1. cbn [bind]. rewrite H2. cbn [bind]. rewrite Hr.
    eexists. reflexivity.
Qed.

(** The error hydration raises names a key that is really missing. *)
Lemma resolve_hits_raises eng hits e :
  resolve_hits eng hits = inl e -> missing_key eng e.
Proof.
  induction hits as [|[s idx] rest IH]; [discriminate|].
  cbn [resolve_hits]. destruct (idx =? -1)%Z; [exact IH|].
  unfold getitem at 1.
  destruct (index_to_id_map eng !! idx) as [iid|] eqn:E1; cbn.
  - unfold getitem.
    destruct (all_internships_map eng !! iid) as [it|] eqn:E2; cbn.
    + destruct (resolve_hits eng rest); cbn; [|discriminate].
      intros H. injection H as <-. apply IH. reflexivity.
    + intros H. injection H as <-. exact E2.
  - intros H. injection H as <-. exact E1.
Qed.

(** A stale identifier among the hits: hydration cannot succeed. *)
Lemma resolve_hits_stale eng hits sem idx iid :
  In (sem, idx) hits -> idx <> (-1)%Z ->
  index_to_id_map eng !! idx = Some iid ->
  all_internships_map eng !! iid = None ->
  exists e, resolve_hits eng hits = inl e.
Proof.
  intros Hin Hne H1 H2.
  destruct (resolve_hits eng hits) as [e|r] eqn:E; [eauto|].
  exfalso. revert r E.
  induction hits as [|[s i] rest IH]; intros r E; [destruct Hin|].
  cbn [resolve_hits] in E.
  destruct (i =? -1)%Z eqn:Es.
  - apply Z.eqb_eq in Es. destruct Hin as [Heq | Hin].
    + injection Heq as -> ->. congruence.
    + exact (IH Hin r E).
  - unfold getitem at 1 in E.
    destruct (index_to_id_map eng !! i) as [iid0|] eqn:E1; [|discriminate].
    cbn in E. unfold getitem at 1 in E.
    destruct (all_internships_map eng !! iid0) as [it0|] eqn:E2;
      [|discriminate].
    cbn in E.
    destruct (resolve_hits eng rest) as [e|r0] eqn:E3; [discriminate|].
    destruct Hin as [Heq | Hin].
    + injection Heq as -> ->. congruence.
    + exact (IH Hin r0 eq_refl).
Qed.

(** ** Shape of the engine's answer *)

Lemma find_recommendations_shape eng skills location interest in_loc glob :
  find_recommendations eng skills location interest = inr (in_loc, glob) ->
  exists cands,
    score_loop eng (user_explicit_skills skills) []
      (search eng (student_text skills interest)) = inr cands
    /\ glob = sort_desc final_score cands
    /\ in_loc = List.filter
         (fun rec => location_matches (Locations (internship rec)) location)
         glob.
Proof.
  unfold find_recommendations. intros H.
  destruct (score_loop eng _ [] _) as [e|cands]; [discriminate|].
  cbn in H. injection H as <- <-. exists cands. auto.
Qed.

Lemma nonempty_filter {A} (p : A -> bool) l :
  nonempty (List.filter p l) = true <-> exists x, In x l /\ p x = true.
Proof.
  split.
  - destruct (List.filter p l) as [|x l'] eqn:E; [discriminate|].
    intros _. exists x. apply filter_In. rewrite E. left. reflexivity.
  - intros [x Hx]. apply filter_In in Hx.
    destruct (List.filter p l); [destruct Hx | reflexivity].
Qed.

Lemma nonempty_true {A} (l : list A) : nonempty l = true <-> l <> [].
Proof. destruct l; simpl; split; congruence. Qed.

Lemma clears_threshold_iff c :
  clears_threshold c = true
  <-> (MINIMUM_SCORE_THRESHOLD <= final_score c)%Q.
Proof. apply Qle_bool_iff. Qed.

Lemma firstn_nonempty {A} n (l : list A) : l <> [] -> firstn (S n) l <> [].
Proof. destruct l; [congruence | discriminate]. Qed.

(** ** The claims *)

(** C1. Result selection: the threshold 0.55 is applied to the in-location
    list and to the global list; when an in-location candidate clears it,
    the answer is the first (at most) 5 of the in-location candidates that
    clear it, in descending score, with the in-location message; otherwise,
    when a global candidate clears it, the first (at most) 3 of those, with
    the other-locations message; otherwise the first 3 global candidates,
    whatever their score, with the closest-matches message. *)
Theorem C1_selection_policy eng skills location interest in_loc glob :
  find_recommendations eng skills location interest = inr (in_loc, glob) ->
  let good_in_location := List.filter clears_threshold in_loc in
  let good_global := List.filter clears_threshold glob in
  let message := fst (select_results location in_loc glob) in
  let results := snd (select_results location in_loc glob) in
  (forall c, In c good_in_location <->
             In c in_loc /\ (55 # 100 <= final_score c)%Q)
  /\ (forall c, In c good_global <->
                In c glob /\ (55 # 100 <= final_score c)%Q)
  /\ StronglySorted (desc final_score) good_in_location
  /\ StronglySorted (desc final_score) good_global
  /\ StronglySorted (desc final_score) glob
  /\ ((exists c, In c in_loc /\ (55 # 100 <= final_score c)%Q) ->
      message = msg_in_location location
      /\ results = firstn 5 good_in_location
      /\ results <> [] /\ length results <= 5)
  /\ (~ (exists c, In c in_loc /\ (55 # 100 <= final_score c)%Q) ->
      (exists c, In c glob /\ (55 # 100 <= final_score c)%Q) ->
      message = msg_other_locations location
      /\ results = firstn 3 good_global
      /\ results <> [] /\ length results <= 3)
  /\ (~ (exists c, In c in_loc /\ (55 # 100 <= final_score c)%Q) ->
      ~ (exists c, In c glob /\ (55 # 100 <= final_score c)%Q) ->
      message = msg_closest /\ results = firstn 3 glob).
Proof.
  intros Hfind good_in_location good_global message results.
  destruct (find_recommendations_shape _ _ _ _ _ _ Hfind)
    as (cands & _ & Hglob & Hin).
  assert (Hsorted : StronglySorted (desc final_score) glob)
    by (rewrite Hglob; apply sort_desc_sorted).
  assert (Hmem : forall l c,
             In c (List.filter clears_threshold l) <->
             In c l /\ (55 # 100 <= final_score c)%Q).
  { intros l c. rewrite filter_In, clears_threshold_iff. reflexivity. }
  assert (Hex : forall l,
             nonempty (List.filter clears_threshold l) = true <->
             exists c, In c l /\ (55 # 100 <= final_score c)%Q).
  { intros l. rewrite nonempty_filter. split; intros [c [H1 H2]]; exists c;
      (split; [exact H1 | apply clears_threshold_iff; exact H2]). }
  split; [apply Hmem|]. split; [apply Hmem|].
  split; [apply sorted_filter; rewrite Hin; apply sorted_filter; exact Hsorted|].
  split; [apply sorted_filter; exact Hsorted|].
  split; [exact Hsorted|].
  subst message results. unfold select_results.
  fold good_in_location good_global.
  split; [|split].
  - intros H. apply Hex in H. fold good_in_location in H. rewrite H.
    cbn [fst snd]. split; [reflexivity|]. split; [reflexivity|].
    split; [apply firstn_nonempty, nonempty_true, H | apply firstn_le_length].
  - intros Hno H. rewrite <- Hex in Hno. fold good_in_location in Hno.
    apply not_true_is_false in Hno. rewrite Hno.
    apply Hex in H. fold good_global in H. rewrite H.
    cbn [fst snd]. split; [reflexivity|]. split; [reflexivity|].
    split; [apply firstn_nonempty, nonempty_true, H | apply firstn_le_length].
  - intros Hno1 Hno2. rewrite <- Hex in Hno1, Hno2.
    fold good_in_location in Hno1. fold good_global in Hno2.
    apply not_true_is_false in Hno1, Hno2. rewrite Hno1, Hno2.
    split; reflexivity.
Qed.

Lemma C1_selection_policy_witness :
  exists in_loc glob,
    find_recommendations Demo.engine "python" "remote" "" = inr (in_loc, glob)
    /\ snd (select_results "remote" in_loc glob)
       = firstn 5 (List.filter clears_threshold in_loc).
Proof.
  eexists _, _. split; [vm_compute; reflexivity|].
  refine (proj1 (proj2 (proj1 (proj2 (proj2 (proj2 (proj2 (proj2
    (C1_selection_policy Demo.engine "python" "remote" "" _ _ _)))))) _))).
  - vm_compute. reflexivity.
  - eexists. split; [left; reflexivity | vm_compute; discriminate].
Defined.

(** C2. Hybrid scoring: the loop's boost is the description's boost (split
    on commas, trim and lowercase the tokens, count those that occur in the
    lowercased internship skills, divide by the number of tokens), and the
    returned candidates are exactly the hydrated hits, each scored
    0.7 * similarity + 0.3 * that boost. *)
Theorem C2_hybrid_scoring eng skills location interest in_loc glob :
  find_recommendations eng skills location interest = inr (in_loc, glob) ->
  (forall internship_skills,
     normalized_boost (user_explicit_skills skills)
       (PyStr.lower internship_skills)
     = spec_normalized_boost skills internship_skills)
  /\ (forall c,
        In c glob <->
        exists sem idx iid,
          In (sem, idx) (search eng (student_text skills interest))
          /\ idx <> (-1)%Z
          /\ index_to_id_map eng !! idx = Some iid
          /\ all_internships_map eng !! iid = Some (internship c)
          /\ final_score c
             = ((7 # 10) * sem
                + (3 # 10)
                  * spec_normalized_boost skills (Skills (internship c)))%Q).
Proof.
  intros Hfind. split; [intros; apply normalized_boost_spec|].
  rewrite find_recommendations_unfold in Hfind.
  destruct (resolve_hits eng _) as [e|r] eqn:Hr; [discriminate|].
  cbn in Hfind. injection Hfind as _ <-.
  intros c. split.
  - intros Hc.
    apply (Permutation_in _ (sort_desc_perm final_score _)) in Hc.
    apply in_map_iff in Hc. destruct Hc as ([sem it] & <- & Hin).
    apply (resolve_hits_In _ _ _ _ _ Hr) in Hin.
    destruct Hin as (idx & iid & H1 & H2 & H3 & H4).
    exists sem, idx, iid. cbn [score_candidate internship final_score fst snd].
    rewrite normalized_boost_spec. auto.
  - intros (sem & idx & iid & H1 & H2 & H3 & H4 & H5).
    apply (Permutation_in _ (Permutation_sym (sort_desc_perm final_score _))).
    apply in_map_iff. exists (sem, internship c). split.
    + destruct c as [fs it]. cbn in *. unfold score_candidate. cbn.
      rewrite normalized_boost_spec. unfold fuse. rewrite H5. reflexivity.
    + apply (resolve_hits_In _ _ _ _ _ Hr). exists idx, iid. auto.
Qed.

Lemma C2_hybrid_scoring_witness :
  exists in_loc glob,
    find_recommendations Demo.engine "python, cobol" "remote" ""
    = inr (in_loc, glob)
    /\ normalized_boost (user_explicit_skills "python, cobol")
         (PyStr.lower "Python3, PyTorch")
       = spec_normalized_boost "python, cobol" "Python3, PyTorch".
Proof.
  eexists _, _. split; [vm_compute; reflexivity|].
  refine (proj1 (C2_hybrid_scoring Demo.engine "python, cobol" "remote" ""
                   _ _ _) "Python3, PyTorch").
  vm_compute. reflexivity.
Defined.

(** C6. The global list is the list of candidates in the order the loop
    produced them, rearranged in descending [final_score]; candidates of
    one and the same score keep the order in which they were produced. *)
Theorem C6_sorted_stable eng skills location interest in_loc glob :
  find_recommendations eng skills location interest = inr (in_loc, glob) ->
  exists cands,
    score_loop eng (user_explicit_skills skills) []
      (search eng (student_text skills interest)) = inr cands
    /\ Permutation glob cands
    /\ StronglySorted (fun a b => (final_score b <= final_score a)%Q) glob
    /\ (forall v,
          List.filter (fun c => Qeq_bool (final_score c) v) glob
          = List.filter (fun c => Qeq_bool (final_score c) v) cands).
Proof.
  intros Hfind.
  destruct (find_recommendations_shape _ _ _ _ _ _ Hfind)
    as (cands & Hloop & -> & _).
  exists cands. split; [exact Hloop|].
  split; [apply sort_desc_perm|].
  split; [apply (sort_desc_sorted final_score)|].
  intros v. apply sort_desc_stable.
Qed.

Lemma C6_sorted_stable_witness :
  exists in_loc glob cands,
    find_recommendations Demo.engine "html" "pune" "" = inr (in_loc, glob)
    /\ score_loop Demo.engine (user_explicit_skills "html") []
         Demo.hits = inr cands
    /\ List.filter (fun c => Qeq_bool (final_score c) (65 # 100)) glob
       = List.filter (fun c => Qeq_bool (final_score c) (65 # 100)) cands.
Proof.
  assert (Hrun : { p | find_recommendations Demo.engine "html" "pune" ""
                       = inr p }).
  { eexists. vm_compute. reflexivity. }
  destruct Hrun as [[in_loc glob] Hrun].
  destruct (C6_sorted_stable Demo.engine "html" "pune" "" in_loc glob Hrun)
    as (cands & H1 & _ & _ & H2).
  exists in_loc, glob, cands. split; [exact Hrun|].
  split; [exact H1 | apply H2].
Defined.

(** ** The location test *)

Lemma location_matches_spec stored location :
  location_matches stored location = true
  <-> PyStr.strip (PyStr.lower stored) = PyStr.lower location.
Proof. unfold location_matches. apply String.eqb_eq. Qed.

Lemma lower_char_space c :
  PyStr.is_space c = true -> PyStr.lower_char c = c.
Proof.
  destruct c as [[] [] [] [] [] [] [] []]; vm_compute; congruence.
Qed.

Lemma lstrip_head s c t :
  PyStr.lstrip s = String c t -> PyStr.is_space c = false.
Proof.
  induction s as [|d s IH]; simpl; [discriminate|].
  destruct (PyStr.is_space d) eqn:E; [exact IH|].
  intros H. injection H as <- _. exact E.
Qed.

Lemma rstrip_head s c t :
  PyStr.rstrip s = String c t -> exists t', s = String c t'.
Proof.
  destruct s as [|d s]; simpl; [discriminate|].
  destruct (PyStr.rstrip s).
  - destruct (PyStr.is_space d); [discriminate|].
    intros H. injection H as <- _. eauto.
  - intros H. injection H as <- _. eauto.
Qed.

(** A stripped string does not start with white space. *)
Lemma strip_head s c t :
  PyStr.strip s = String c t -> PyStr.is_space c = false.
Proof.
  unfold PyStr.strip. intros H. apply rstrip_head in H as [t' H].
  exact (lstrip_head _ _ _ H).
Qed.

(** A requested location that starts with white space matches no stored
    location at all: only the stored side is stripped. *)
Lemma location_matches_padded stored c rest :
  PyStr.is_space c = true ->
  location_matches stored (String c rest) = false.
Proof.
  intros Hc. destruct (location_matches stored (String c rest)) eqn:E;
    [|reflexivity].
  apply location_matches_spec in E. cbn [PyStr.lower] in E.
  rewrite (lower_char_space c Hc) in E. apply strip_head in E. congruence.
Qed.

(** C3. The stored side of the location test is lowercased and stripped,
    the requested side is lowercased only: against the stored location
    "remote", the requests "Remote" and "REMOTE" match, and the request
    " remote " does not; the engine returns no in-location candidate for
    it, although the record located at "remote" is among the global ones. *)
Theorem C3_padded_request_not_matched :
  location_matches "remote" "Remote" = true
  /\ location_matches "remote" "REMOTE" = true
  /\ location_matches "remote" " remote " = false
  /\ (exists glob,
        find_recommendations Demo.engine "python" " remote " ""
        = inr ([], glob)
        /\ Exists (fun c => Locations (internship c) = "remote") glob)
  /\ (exists c in_loc glob,
        find_recommendations Demo.engine "python" "remote" ""
        = inr (c :: in_loc, glob)).
Proof.
  split; [reflexivity|]. split; [reflexivity|]. split; [reflexivity|].
  split.
  - eexists. split; [vm_compute; reflexivity|].
    apply Exists_cons_tl, Exists_cons_hd. reflexivity.
  - eexists _, _, _. vm_compute. reflexivity.
Qed.

(** C4. The guard [if user_explicit_skills else 0] never fires, because
    [split] never returns the empty list: for the skills strings "", " "
    and ",", every token is the empty string, which occurs in every text,
    and the boost of every internship is 1, not 0; the view accepts the
    skills string " " and answers with scores 0.7 * similarity + 0.3. *)
Theorem C4_blank_skills_boost_is_one :
  (forall text, (normalized_boost (user_explicit_skills "") text == 1)%Q)
  /\ (forall text, (normalized_boost (user_explicit_skills " ") text == 1)%Q)
  /\ (forall text, (normalized_boost (user_explicit_skills ",") text == 1)%Q)
  /\ fst (get Demo.engine ∅ (Demo.params " " "remote"))
     = Returned (mkResponse 200
         (RecommendationData (msg_in_location "remote")
            [mkCandidate ((7 # 10) * (8 # 10) + (3 # 10) * (1 / 1))
               Demo.ml_intern;
             mkCandidate ((7 # 10) * (6 # 10) + (3 # 10) * (1 / 1))
               Demo.data_intern])).
Proof.
  assert (Hall : forall tokens text,
             tokens <> [] -> (forall t, In t tokens -> t = "") ->
             (normalized_boost tokens text == 1)%Q).
  { intros tokens text Hne Hall. apply normalized_boost_all_match; [exact Hne|].
    intros t Ht. rewrite (Hall t Ht). apply PyStrFacts.contains_empty. }
  split; [|split; [|split]].
  - intros text. apply Hall; [discriminate|].
    intros t [<-|[]]; reflexivity.
  - intros text. apply Hall; [discriminate|].
    intros t [<-|[]]; reflexivity.
  - intros text. apply Hall; [discriminate|].
    intros t [<-|[<-|[]]]; reflexivity.
  - vm_compute. reflexivity.
Qed.

(** C9. The cache key is not injective on (skills, location, interest):
    the underscore that separates the fields may occur inside them. The
    requests (skills "python", location "remote_x") and (skills
    "python_remote", location "x") differ and share one key, and the
    second, sent after the first, is answered from the cache with the
    first's response, not with its own. *)
Theorem C9_cache_key_collision :
  ("python", "remote_x", "") <> ("python_remote", "x", "")
  /\ cache_key "python" "remote_x" "" = cache_key "python_remote" "x" ""
  /\ (let first := Demo.params "python" "remote_x" in
      let second := Demo.params "python_remote" "x" in
      let cache := snd (get Demo.engine ∅ first) in
      fst (get Demo.engine cache second) = fst (get Demo.engine ∅ first)
      /\ fst (get Demo.engine cache second)
         <> fst (get Demo.engine ∅ second)).
Proof.
  split; [discriminate|]. split; [reflexivity|].
  split; [vm_compute; reflexivity | vm_compute; discriminate].
Qed.

(** On one cache and one engine the view is a function of its
    parameters. *)
Lemma get_deterministic eng cache q1 q2 :
  query_param q1 "skills" = query_param q2 "skills" ->
  query_param q1 "location" = query_param q2 "location" ->
  query_param q1 "interest" = query_param q2 "interest" ->
  get eng cache q1 = get eng cache q2.
Proof. unfold get. intros -> -> ->. reflexivity. Qed.

(** ** Non-empty answers *)

Lemma select_results_nonempty location in_loc glob :
  glob <> [] -> snd (select_results location in_loc glob) <> [].
Proof.
  intros Hglob. unfold select_results.
  destruct (nonempty (List.filter clears_threshold in_loc)) eqn:E1.
  { apply firstn_nonempty, nonempty_true, E1. }
  destruct (nonempty (List.filter clears_threshold glob)) eqn:E2.
  { apply firstn_nonempty, nonempty_true, E2. }
  apply firstn_nonempty, Hglob.
Qed.

Lemma truthy_true s : PyStr.truthy s = true <-> s <> "".
Proof. destruct s; simpl; split; congruence. Qed.

Lemma find_recommendations_nonempty eng skills location interest :
  has_hit eng (student_text skills interest) ->
  in_sync eng (student_text skills interest) ->
  exists in_loc glob,
    find_recommendations eng skills location interest = inr (in_loc, glob)
    /\ glob <> [].
Proof.
  intros (sem & idx & Hin & Hne) Hsync.
  destruct (resolve_hits_ok eng _ Hsync) as [r Hr].
  rewrite find_recommendations_unfold, Hr. cbn.
  eexists _, _. split; [reflexivity|].
  destruct (Hsync sem idx Hin Hne) as (iid & it & H1 & H2).
  assert (Hit : In (sem, it) r).
  { apply (resolve_hits_In _ _ _ _ _ Hr). exists idx, iid. auto. }
  intros Hnil.
  apply (in_map (score_candidate (user_explicit_skills skills))) in Hit.
  apply (Permutation_in _
           (Permutation_sym (sort_desc_perm final_score _))) in Hit.
  rewrite Hnil in Hit. destruct Hit.
Qed.

(** C5. With both parameters given, an index that returns at least one
    position (a non-empty corpus) and artifacts in sync with the corpus,
    the view answers 200 with a non-empty recommendations list, whichever
    tier is selected; this holds on every cache whose entries are
    non-empty answers, and the cache it leaves is again such a cache. *)
Theorem C5_nonempty_result eng cache query_params :
  let skills := query_param query_params "skills" in
  let location := query_param query_params "location" in
  let interest := query_param query_params "interest" in
  skills <> "" -> location <> "" ->
  has_hit eng (student_text skills interest) ->
  in_sync eng (student_text skills interest) ->
  cache_nonempty cache ->
  exists message recs cache',
    get eng cache query_params
    = (Returned (mkResponse 200 (RecommendationData message recs)), cache')
    /\ recs <> []
    /\ cache_nonempty cache'.
Proof.
  intros skills location interest Hs Hl Hhit Hsync Hcache.
  unfold get. cbv zeta. fold skills location interest.
  apply truthy_true in Hs, Hl. rewrite Hs, Hl. cbn [negb orb].
  set (key := cache_key skills location interest).
  destruct (cache !! key) as [d|] eqn:Ek.
  - destruct (Hcache _ _ Ek) as (message & recs & -> & Hne).
    exists message, recs, cache. auto.
  - destruct (find_recommendations_nonempty eng skills location interest
                Hhit Hsync) as (in_loc & glob & Hfind & Hglob).
    rewrite Hfind.
    pose proof (select_results_nonempty location in_loc glob Hglob) as Hres.
    destruct (select_results location in_loc glob) as [message results].
    cbn [snd] in Hres.
    exists message, results,
      (<[key := RecommendationData message results]> cache).
    split; [reflexivity|]. split; [exact Hres|].
    intros k d Hk. destruct (decide (key = k)) as [<-|Hneq].
    + rewrite lookup_insert_eq in Hk. injection Hk as <-. eauto.
    + rewrite lookup_insert_ne in Hk by exact Hneq. exact (Hcache _ _ Hk).
Qed.

Lemma C5_nonempty_result_witness :
  exists message recs cache',
    get Demo.engine ∅ (Demo.params "cobol" "onsite")
    = (Returned (mkResponse 200 (RecommendationData message recs)), cache')
    /\ recs <> []
    /\ cache_nonempty cache'.
Proof.
  apply (C5_nonempty_result Demo.engine ∅ (Demo.params "cobol" "onsite")).
  - vm_compute. discriminate.
  - vm_compute. discriminate.
  - exists (8 # 10), 2%Z. split; [left; reflexivity | discriminate].
  - intros sem idx Hin Hne. cbn in Hin.
    destruct Hin as [H|[H|[H|[H|[]]]]]; injection H as <- <-.
    + exists "3", Demo.ml_intern. split; reflexivity.
    + exists "1", Demo.data_intern. split; reflexivity.
    + exists "2", Demo.web_intern. split; reflexivity.
    + congruence.
  - intros k d Hk. rewrite lookup_empty in Hk. discriminate.
Defined.

(** ** Failures *)

(** C7. A position of the index whose identifier is absent from the corpus
    makes the query fail with a [KeyError] that names a key really missing;
    the engine never returns a list with that candidate left out, and the
    view, on a cache miss, lets the exception through and leaves the cache
    as it was. *)
Theorem C7_stale_identifier_raises eng skills location interest sem idx iid :
  In (sem, idx) (search eng (student_text skills interest)) ->
  idx <> (-1)%Z ->
  index_to_id_map eng !! idx = Some iid ->
  all_internships_map eng !! iid = None ->
  exists e,
    find_recommendations eng skills location interest = inl e
    /\ missing_key eng e
    /\ (forall cache query_params,
          query_param query_params "skills" = skills ->
          query_param query_params "location" = location ->
          query_param query_params "interest" = interest ->
          skills <> "" -> location <> "" ->
          cache !! cache_key skills location interest = None ->
          get eng cache query_params = (Uncaught e, cache)).
Proof.
  intros Hin Hne H1 H2.
  destruct (resolve_hits_stale eng _ sem idx iid Hin Hne H1 H2) as [e He].
  assert (Hfind : find_recommendations eng skills location interest = inl e).
  { rewrite find_recommendations_unfold, He. reflexivity. }
  exists e. split; [exact Hfind|].
  split; [exact (resolve_hits_raises _ _ _ He)|].
  intros cache query_params Es El Ei Hs Hl Hmiss.
  unfold get. cbv zeta. rewrite Es, El, Ei.
  apply truthy_true in Hs, Hl. rewrite Hs, Hl. cbn [negb orb].
  rewrite Hmiss, Hfind. reflexivity.
Qed.

Lemma C7_stale_identifier_raises_witness :
  exists e,
    find_recommendations Demo.stale_engine "python" "remote" "" = inl e
    /\ missing_key Demo.stale_engine e
    /\ get Demo.stale_engine ∅ (Demo.params "python" "remote")
       = (Uncaught e, ∅).
Proof.
  destruct (C7_stale_identifier_raises Demo.stale_engine "python" "remote" ""
              (8 # 10) 2%Z "3") as (e & H1 & H2 & H3).
  - left. reflexivity.
  - discriminate.
  - reflexivity.
  - reflexivity.
  - exists e. split; [exact H1|]. split; [exact H2|].
    apply H3; try reflexivity; discriminate.
Defined.

(** C8. A request whose [skills] or [location] parameter is missing or
    empty is answered 400 with the input-error message, whatever the engine
    and the cache are, and the cache is left as it was: neither the engine
    nor the cache takes part in the answer. *)
Theorem C8_missing_parameters_rejected eng cache
    (query_params : gmap string string) :
  query_params !! "skills" = None \/ query_params !! "skills" = Some ""
  \/ query_params !! "location" = None
  \/ query_params !! "location" = Some "" ->
  get eng cache query_params
  = (Returned (mkResponse 400
       (ErrorData "Please provide both 'skills' and 'location' parameters.")),
     cache).
Proof.
  intros H. unfold get, query_param. cbv zeta.
  destruct H as [H|[H|[H|H]]]; rewrite H; cbn [default PyStr.truthy negb orb].
  - reflexivity.
  - reflexivity.
  - rewrite orb_true_r. reflexivity.
  - rewrite orb_true_r. reflexivity.
Qed.

Lemma C8_missing_parameters_rejected_witness :
  get Demo.stale_engine ∅ (Demo.params "" "remote")
  = (Returned (mkResponse 400
       (ErrorData "Please provide both 'skills' and 'location' parameters.")),
     ∅).
Proof.
  apply (C8_missing_parameters_rejected Demo.stale_engine ∅
           (Demo.params "" "remote")).
  right. left. reflexivity.
Defined.

(** The status 400 is given for missing parameters only, and an uncaught
    exception never arises from them. *)
Lemma get_400_iff eng cache query_params d cache' :
  get eng cache query_params = (Returned (mkResponse 400 d), cache') ->
  query_param query_params "skills" = ""
  \/ query_param query_params "location" = "".
Proof.
  unfold get. cbv zeta.
  destruct (query_param query_params "skills") as [|c s]; [auto|].
  destruct (query_param query_params "location") as [|c' s']; [auto|].
  cbn [PyStr.truthy negb orb].
  destruct (cache !! _); [discriminate|].
  destruct (find_recommendations eng _ _ _) as [e|[in_loc glob]];
    [discriminate|].
  destruct (select_results _ in_loc glob). discriminate.
Qed.

(** ** Empty skills *)

Lemma fuse_mono b x y :
  Qle_bool (fuse y b) (fuse x b) = Qle_bool y x.
Proof.
  unfold fuse.
  destruct (Qle_bool y x) eqn:E.
  - apply Qle_bool_iff in E. apply Qle_bool_iff. lra.
  - apply Qle_bool_false in E. apply Qle_bool_false. lra.
Qed.

Lemma normalized_boost_empty_token text :
  normalized_boost [""] text = (Qofnat 1 / Qofnat 1)%Q.
Proof.
  unfold normalized_boost, skill_boost_score. cbn [fold_left].
  rewrite PyStrFacts.contains_empty. reflexivity.
Qed.

(** C10. For the empty skills string the token list is the single empty
    token, which occurs in every skills text, so every candidate has one
    and the same boost; the global list is then the hydrated hits in
    stable descending order of their similarity alone, each scored
    afterwards. *)
Theorem C10_empty_skills_semantic_order eng location interest in_loc glob :
  find_recommendations eng "" location interest = inr (in_loc, glob) ->
  user_explicit_skills "" = [""]
  /\ (forall text, PyStr.contains "" text = true)
  /\ (forall text text',
        normalized_boost (user_explicit_skills "") text
        = normalized_boost (user_explicit_skills "") text')
  /\ exists r,
       resolve_hits eng (search eng (student_text "" interest)) = inr r
       /\ glob
          = map (score_candidate (user_explicit_skills ""))
              (sort_desc fst r).
Proof.
  intros Hfind. split; [reflexivity|].
  split; [apply PyStrFacts.contains_empty|].
  split.
  { intros text text'. change (user_explicit_skills "") with [""].
    rewrite !normalized_boost_empty_token. reflexivity. }
  rewrite find_recommendations_unfold in Hfind.
  destruct (resolve_hits eng _) as [e|r]; [discriminate|].
  cbn in Hfind. injection Hfind as _ <-.
  exists r. split; [reflexivity|].
  apply sort_desc_map. intros x y.
  change (user_explicit_skills "") with [""].
  unfold score_candidate. cbn [final_score].
  rewrite !normalized_boost_empty_token. apply fuse_mono.
Qed.

Lemma C10_empty_skills_semantic_order_witness :
  exists in_loc glob r,
    find_recommendations Demo.engine "" "remote" "" = inr (in_loc, glob)
    /\ resolve_hits Demo.engine Demo.hits = inr r
    /\ glob = map (score_candidate (user_explicit_skills ""))
                (sort_desc fst r).
Proof.
  assert (Hrun : { p | find_recommendations Demo.engine "" "remote" ""
                       = inr p }).
  { eexists. vm_compute. reflexivity. }
  destruct Hrun as [[in_loc glob] Hrun].
  destruct (C10_empty_skills_semantic_order Demo.engine "remote" ""
              in_loc glob Hrun) as (_ & _ & _ & r & H1 & H2).
  exists in_loc, glob, r. split; [exact Hrun|]. split; [exact H1 | exact H2].
Defined.

(** ** The view on a cache miss, and the sort on ties *)

Lemma get_miss eng cache query_params in_loc glob :
  let skills := query_param query_params "skills" in
  let location := query_param query_params "location" in
  let interest := query_param query_params "interest" in
  skills <> "" -> location <> "" ->
  cache !! cache_key skills location interest = None ->
  find_recommendations eng skills location interest = inr (in_loc, glob) ->
  fst (get eng cache query_params)
  = Returned (mkResponse 200
      (RecommendationData (fst (select_results location in_loc glob))
         (snd (select_results location in_loc glob)))).
Proof.
  intros skills location interest Hs Hl Hmiss Hfind.
  unfold get. cbv zeta. fold skills location interest.
  apply truthy_true in Hs, Hl. rewrite Hs, Hl. cbn [negb orb].
  rewrite Hmiss, Hfind.
  destruct (select_results location in_loc glob). reflexivity.
Qed.

Example sort_desc_ties :
  sort_desc fst [(1 # 2, "a"); (7 # 10, "b"); (2 # 4, "c"); (1 # 2, "d")]
  = [(7 # 10, "b"); (1 # 2, "a"); (2 # 4, "c"); (1 # 2, "d")].
Proof. reflexivity. Qed.

(** ** Normalisation of tokens and locations *)

Lemma is_space_lower_char c :
  PyStr.is_space (PyStr.lower_char c) = PyStr.is_space c.
Proof. destruct c as [[] [] [] [] [] [] [] []]; vm_compute; reflexivity. Qed.

Lemma lower_char_idem c :
  PyStr.lower_char (PyStr.lower_char c) = PyStr.lower_char c.
Proof. destruct c as [[] [] [] [] [] [] [] []]; vm_compute; reflexivity. Qed.

Lemma lower_char_comma c :
  Ascii.eqb (PyStr.lower_char c) "," = Ascii.eqb c ",".
Proof. destruct c as [[] [] [] [] [] [] [] []]; vm_compute; reflexivity. Qed.

Lemma lower_idem s : PyStr.lower (PyStr.lower s) = PyStr.lower s.
Proof.
  induction s as [|c s IH]; [reflexivity|].
  simpl. rewrite lower_char_idem, IH. reflexivity.
Qed.

Lemma lstrip_lower s :
  PyStr.lstrip (PyStr.lower s) = PyStr.lower (PyStr.lstrip s).
Proof.
  induction s as [|c s IH]; [reflexivity|].
  simpl. rewrite is_space_lower_char.
  destruct (PyStr.is_space c); [exact IH | reflexivity].
Qed.

Lemma rstrip_lower s :
  PyStr.rstrip (PyStr.lower s) = PyStr.lower (PyStr.rstrip s).
Proof.
  induction s as [|c s IH]; [reflexivity|].
  simpl. rewrite IH, is_space_lower_char.
  destruct (PyStr.rstrip s) as [|d r]; simpl.
  - destruct (PyStr.is_space c); reflexivity.
  - reflexivity.
Qed.

Lemma strip_lower s :
  PyStr.strip (PyStr.lower s) = PyStr.lower (PyStr.strip s).
Proof. unfold PyStr.strip. rewrite lstrip_lower, rstrip_lower. reflexivity. Qed.

Lemma rstrip_idem s : PyStr.rstrip (PyStr.rstrip s) = PyStr.rstrip s.
Proof.
  induction s as [|c s IH]; [reflexivity|].
  simpl. destruct (PyStr.rstrip s) as [|d r] eqn:E.
  - destruct (PyStr.is_space c) eqn:Ec; [reflexivity|].
    simpl. rewrite Ec. reflexivity.
  - change (PyStr.rstrip (String c (String d r)))
      with (match PyStr.rstrip (String d r) with
            | EmptyString =>
                if PyStr.is_space c then EmptyString
                else String c EmptyString
            | r0 => String c r0
            end).
    rewrite IH. reflexivity.
Qed.

Lemma lstrip_fixed s :
  (forall c t, s = String c t -> PyStr.is_space c = false) ->
  PyStr.lstrip s = s.
Proof.
  destruct s as [|c t]; [reflexivity|].
  intros H. simpl. rewrite (H c t eq_refl). reflexivity.
Qed.

Lemma strip_idem s : PyStr.strip (PyStr.strip s) = PyStr.strip s.
Proof.
  unfold PyStr.strip at 1. rewrite lstrip_fixed.
  - unfold PyStr.strip. apply rstrip_idem.
  - intros c t H. exact (strip_head _ _ _ H).
Qed.

Lemma split_lower s :
  PyStr.split "," (PyStr.lower s) = map PyStr.lower (PyStr.split "," s).
Proof.
  induction s as [|c s IH]; [reflexivity|].
  simpl. rewrite lower_char_comma, IH.
  destruct (Ascii.eqb c ","); [reflexivity|].
  pose proof (PyStrFacts.split_nonempty "," s) as Hne.
  destruct (PyStr.split "," s); [congruence | reflexivity].
Qed.

Lemma split_app sep a b :
  PyStr.split sep (a +:+ String sep b)
  = (PyStr.split sep a ++ PyStr.split sep b)%list.
Proof.
  induction a as [|c a IH].
  - simpl. rewrite Ascii.eqb_refl. reflexivity.
  - simpl. rewrite IH. destruct (Ascii.eqb c sep); [reflexivity|].
    pose proof (PyStrFacts.split_nonempty sep a) as Hne.
    destruct (PyStr.split sep a); [congruence | reflexivity].
Qed.

Lemma user_explicit_skills_lower skills :
  user_explicit_skills (PyStr.lower skills) = user_explicit_skills skills.
Proof.
  unfold user_explicit_skills. rewrite split_lower, map_map.
  apply map_ext. intros t. rewrite strip_lower, lower_idem. reflexivity.
Qed.

(** X1. The two orders of normalisation the engine uses, lowercasing a
    stripped token and stripping a lowercased location, give the same
    string. *)
Theorem X1_strip_lower_commute s :
  PyStr.strip (PyStr.lower s) = PyStr.lower (PyStr.strip s).
Proof. apply strip_lower. Qed.

(** X2. A stored location matches a request exactly when the stored
    location, stripped, and the request as sent are equal up to case. *)
Theorem X2_location_match_characterised stored location :
  location_matches stored location = true
  <-> PyStr.lower (PyStr.strip stored) = PyStr.lower location.
Proof. rewrite location_matches_spec, strip_lower. reflexivity. Qed.

(** X3. The boost does not depend on the case of the user's skills nor on
    the case of the listing's skills. *)
Theorem X3_boost_ignores_case skills internship_skills :
  normalized_boost (user_explicit_skills (PyStr.lower skills))
    (PyStr.lower (PyStr.lower internship_skills))
  = normalized_boost (user_explicit_skills skills)
      (PyStr.lower internship_skills).
Proof. rewrite user_explicit_skills_lower, lower_idem. reflexivity. Qed.

Lemma user_explicit_skills_app a b :
  user_explicit_skills (a +:+ "," +:+ b)
  = (user_explicit_skills a ++ user_explicit_skills b)%list.
Proof.
  unfold user_explicit_skills.
  change ("," +:+ b) with (String "," b).
  rewrite split_app, map_app. reflexivity.
Qed.

(** X4. The tokens of two skill lists joined by a comma are the tokens of
    the first followed by the tokens of the second. *)
Theorem X4_tokens_of_joined_skills a b :
  user_explicit_skills (a +:+ "," +:+ b)
  = (user_explicit_skills a ++ user_explicit_skills b)%list.
Proof. apply user_explicit_skills_app. Qed.

Lemma skill_boost_score_app t1 t2 text :
  skill_boost_score (t1 ++ t2) text
  = skill_boost_score t1 text + skill_boost_score t2 text.
Proof.
  rewrite !skill_boost_score_count, List.filter_app, length_app. reflexivity.
Qed.

Lemma normalized_boost_positive tokens text :
  0 < skill_boost_score tokens text ->
  (0 < normalized_boost tokens text)%Q.
Proof.
  intros Hpos. unfold normalized_boost.
  destruct tokens as [|t ts].
  { exfalso. revert Hpos. unfold skill_boost_score. simpl. lia. }
  apply Qlt_shift_div_l.
  - apply Qofnat_pos. simpl. lia.
  - rewrite Qmult_0_l. apply Qofnat_pos. exact Hpos.
Qed.

(** X5. A trailing comma adds one empty token, and the empty token counts
    as a match in every listing: the count and the number of tokens both
    grow by one, and the boost of every listing is positive. *)
Theorem X5_trailing_comma_counts_as_match skills text :
  skill_boost_score (user_explicit_skills (skills +:+ ",")) text
  = skill_boost_score (user_explicit_skills skills) text + 1
  /\ length (user_explicit_skills (skills +:+ ","))
     = length (user_explicit_skills skills) + 1
  /\ (0 < normalized_boost (user_explicit_skills (skills +:+ ",")) text)%Q.
Proof.
  assert (E : user_explicit_skills (skills +:+ ",")
              = (user_explicit_skills skills ++ [""])%list).
  { change "," with ("," +:+ ""). apply user_explicit_skills_app. }
  assert (E1 : skill_boost_score (user_explicit_skills (skills +:+ ",")) text
               = skill_boost_score (user_explicit_skills skills) text + 1).
  { rewrite E, skill_boost_score_app. f_equal.
    unfold skill_boost_score. simpl.
    rewrite PyStrFacts.contains_empty. reflexivity. }
  split; [exact E1|]. split.
  - rewrite E, length_app. reflexivity.
  - apply normalized_boost_positive. rewrite E1. lia.
Qed.

(** ** What the engine returns, and what the messages promise *)

Lemma resolve_hits_length eng hits r :
  resolve_hits eng hits = inr r ->
  length r = length (List.filter is_hit hits).
Proof.
  revert r; induction hits as [|[s idx] rest IH]; intros r Hr.
  - injection Hr as <-. reflexivity.
  - cbn [resolve_hits] in Hr. cbn [List.filter]. unfold is_hit at 1.
    cbn [snd]. destruct (idx =? -1)%Z; cbn [negb]; [exact (IH r Hr)|].
    destruct (getitem KeyError_position (index_to_id_map eng) idx)
      as [e|iid]; [discriminate|].
    cbn [bind] in Hr.
    destruct (getitem KeyError_id (all_internships_map eng) iid)
      as [e|it]; [discriminate|].
    cbn [bind] in Hr.
    destruct (resolve_hits eng rest) as [e|r0]; [discriminate|].
    injection Hr as <-. cbn [length]. rewrite (IH r0 eq_refl). reflexivity.
Qed.

(** X6. When the engine answers, the global list has one candidate for each
    position the index returned, the sentinel -1 apart: none is dropped and
    none is added; the in-location list is no longer than the global one. *)
Theorem X6_one_candidate_per_hit eng skills location interest in_loc glob :
  find_recommendations eng skills location interest = inr (in_loc, glob) ->
  length glob
  = length (List.filter is_hit (search eng (student_text skills interest)))
  /\ length in_loc <= length glob.
Proof.
  intros Hfind. rewrite find_recommendations_unfold in Hfind.
  destruct (resolve_hits eng _) as [e|r] eqn:Hr; [discriminate|].
  cbn in Hfind. injection Hfind as <- <-. split.
  - rewrite (Permutation_length (sort_desc_perm final_score _)).
    rewrite length_map. exact (resolve_hits_length _ _ _ Hr).
  - apply filter_length_le.
Qed.

Lemma X6_one_candidate_per_hit_witness :
  exists in_loc glob,
    find_recommendations Demo.engine "python" "remote" "" = inr (in_loc, glob)
    /\ length glob = 3 /\ length in_loc <= length glob.
Proof.
  assert (Hrun : { p | find_recommendations Demo.engine "python" "remote" ""
                       = inr p }).
  { eexists. vm_compute. reflexivity. }
  destruct Hrun as [[in_loc glob] Hrun].
  exists in_loc, glob. split; [exact Hrun|].
  exact (X6_one_candidate_per_hit Demo.engine "python" "remote" ""
           in_loc glob Hrun).
Defined.














(** ** The cache *)

(** X11. Sending a request a second time changes nothing: on the cache the
    first call leaves, the same request has the same outcome and leaves
    the same cache. *)
Theorem X11_repeated_request eng cache query_params :
  get eng (snd (get eng cache query_params)) query_params
  = get eng cache query_params.
Proof.
  unfold get. cbv zeta.
  set (skills := query_param query_params "skills").
  set (location := query_param query_params "location").
  set (interest := query_param query_params "interest").
  set (key := cache_key skills location interest).
  destruct (negb (PyStr.truthy skills) || negb (PyStr.truthy location));
    [reflexivity|].
  destruct (cache !! key) as [d|] eqn:Ek; cbn [snd].
  { rewrite Ek. reflexivity. }
  destruct (find_recommendations eng skills location interest)
    as [e|[in_loc glob]] eqn:Ef; cbn [snd].
  { rewrite Ek. reflexivity. }
  destruct (select_results location in_loc glob) as [message results].
  cbn [snd]. rewrite lookup_insert_eq. reflexivity.
Qed.

(** X12. Once a request has been answered, the answer no longer depends on
    the engine: on the cache that call leaves, every engine, for instance
    one over a rebuilt index or a changed corpus, gives the same response
    to that request, as long as the entry is in the cache. *)
Theorem X12_cached_answer_ignores_engine eng cache query_params r cache' :
  get eng cache query_params = (Returned r, cache') ->
  forall eng', get eng' cache' query_params = (Returned r, cache').
Proof.
  unfold get. cbv zeta.
  set (skills := query_param query_params "skills").
  set (location := query_param query_params "location").
  set (interest := query_param query_params "interest").
  set (key := cache_key skills location interest).
  destruct (negb (PyStr.truthy skills) || negb (PyStr.truthy location)).
  { intros H eng'. injection H as <- <-. reflexivity. }
  destruct (cache !! key) as [d|] eqn:Ek.
  { intros H eng'. injection H as <- <-. rewrite Ek. reflexivity. }
  destruct (find_recommendations eng skills location interest)
    as [e|[in_loc glob]]; [discriminate|].
  destruct (select_results location in_loc glob) as [message results].
  intros H eng'. injection H as <- <-. rewrite lookup_insert_eq. reflexivity.
Qed.

Lemma X12_cached_answer_ignores_engine_witness :
  exists r cache',
    get Demo.engine ∅ (Demo.params "python" "remote") = (Returned r, cache')
    /\ get Demo.stale_engine cache' (Demo.params "python" "remote")
       = (Returned r, cache').
Proof.
  assert (Hrun : { p | get Demo.engine ∅ (Demo.params "python" "remote")
                       = (Returned (fst p), snd p) }).
  { eexists (_, _). vm_compute. reflexivity. }
  destruct Hrun as [[r cache'] Hrun]. cbn [fst snd] in Hrun.
  exists r, cache'. split; [exact Hrun|].
  exact (X12_cached_answer_ignores_engine Demo.engine ∅
           (Demo.params "python" "remote") r cache' Hrun Demo.stale_engine).
Defined.

(** X13. The view never removes nor overwrites a cache entry: the cache it
    leaves extends the one it found, and differs from it at most at the
    key of the request. *)
Theorem X13_cache_only_grows eng cache query_params :
  cache ⊆ snd (get eng cache query_params)
  /\ (forall k,
        k <> cache_key (query_param query_params "skills")
               (query_param query_params "location")
               (query_param query_params "interest") ->
        snd (get eng cache query_params) !! k = cache !! k).
Proof.
  unfold get. cbv zeta.
  set (skills := query_param query_params "skills").
  set (location := query_param query_params "location").
  set (interest := query_param query_params "interest").
  set (key := cache_key skills location interest).
  destruct (negb (PyStr.truthy skills) || negb (PyStr.truthy location));
    cbn [snd]; [split; [reflexivity | reflexivity]|].
  destruct (cache !! key) as [d|] eqn:Ek; cbn [snd];
    [split; [reflexivity | reflexivity]|].
  destruct (find_recommendations eng skills location interest)
    as [e|[in_loc glob]]; cbn [snd]; [split; [reflexivity | reflexivity]|].
  destruct (select_results location in_loc glob) as [message results].
  cbn [snd]. split.
  - apply insert_subseteq. exact Ek.
  - intros k Hk. apply lookup_insert_ne. congruence.
Qed.

(** ** Loading the corpus and building the position map *)

Lemma load_internships_acc rows (m : gmap string Internship) k :
  fold_left (fun m row => <[internship_id row := row]> m) rows m !! k
  = match last (List.filter (fun row => String.eqb (internship_id row) k)
                  rows) with
    | Some row => Some row
    | None => m !! k
    end.
Proof.
  revert m; induction rows as [|row rows IH]; intros m; [reflexivity|].
  cbn [fold_left List.filter]. rewrite IH.
  set (F := List.filter (fun row0 => String.eqb (internship_id row0) k) rows).
  destruct (String.eqb (internship_id row) k) eqn:E.
  - apply String.eqb_eq in E. rewrite last_cons.
    destruct (last F); [reflexivity|]. rewrite E. apply lookup_insert_eq.
  - apply String.eqb_neq in E.
    destruct (last F); [reflexivity|]. apply lookup_insert_ne. exact E.
Qed.

Lemma load_internships_lookup rows k :
  load_internships rows !! k
  = last (List.filter (fun row => String.eqb (internship_id row) k) rows).
Proof.
  unfold load_internships. rewrite load_internships_acc.
  destruct (last _); [reflexivity | apply lookup_empty].
Qed.

Lemma load_internships_Some rows k it :
  load_internships rows !! k = Some it ->
  In it rows /\ internship_id it = k.
Proof.
  rewrite load_internships_lookup. intros H.
  apply last_Some in H as [l' H].
  assert (Hin : In it (List.filter
                         (fun row => String.eqb (internship_id row) k) rows)).
  { rewrite H. apply in_or_app. right. left. reflexivity. }
  apply filter_In in Hin. destruct Hin as [Hin E].
  apply String.eqb_eq in E. auto.
Qed.

Lemma load_internships_In rows row :
  In row rows -> is_Some (load_internships rows !! internship_id row).
Proof.
  intros Hin. rewrite load_internships_lookup.
  assert (Hf : In row (List.filter
                  (fun r => String.eqb (internship_id r) (internship_id row))
                  rows)).
  { apply filter_In. split; [exact Hin | apply String.eqb_refl]. }
  destruct (last _) eqn:El; [eauto|].
  apply last_None in El. rewrite El in Hf. destruct Hf.
Qed.

(** X14. After loading, the corpus holds under each identifier the last
    row of the file that carries it (a later row replaces an earlier one
    of the same identifier), and nothing under an identifier of no row. *)
Theorem X14_corpus_keeps_last_row rows k :
  load_internships rows !! k
  = last (List.filter (fun row => String.eqb (internship_id row) k) rows).
Proof. apply load_internships_lookup. Qed.

Lemma build_index_acc (l : list Internship) (s : nat) (m : gmap Z string)
    (i : Z) :
  fold_left (fun m p => <[fst p := internship_id (snd p)]> m)
    (combine (map Z.of_nat (seq s (length l))) l) m !! i
  = if decide (Z.of_nat s <= i < Z.of_nat s + Z.of_nat (length l))%Z
    then internship_id <$> l !! (Z.to_nat i - s)
    else m !! i.
Proof.
  revert s m; induction l as [|x l IH]; intros s m.
  - cbn. case_decide; [lia | reflexivity].
  - cbn [length seq map combine fold_left fst snd]. rewrite IH.
    destruct (decide (i = Z.of_nat s)) as [->|Hne].
    + rewrite decide_False by lia. rewrite decide_True by lia.
      rewrite lookup_insert_eq.
      replace (Z.to_nat (Z.of_nat s) - s) with 0 by lia. reflexivity.
    + rewrite lookup_insert_ne by congruence.
      destruct (decide (Z.of_nat (S s) <= i
                        < Z.of_nat (S s) + Z.of_nat (length l))%Z)
        as [Hin|Hout].
      * rewrite decide_True by lia.
        replace (Z.to_nat i - s) with (S (Z.to_nat i - S s)) by lia.
        reflexivity.
      * rewrite decide_False by lia. reflexivity.
Qed.

Lemma build_index_lookup rows (i : Z) :
  build_index_to_id_map rows !! i
  = if decide (0 <= i)%Z then internship_id <$> rows !! Z.to_nat i else None.
Proof.
  unfold build_index_to_id_map, enumerate. rewrite build_index_acc.
  rewrite Nat.sub_0_r.
  destruct (decide (0 <= i)%Z) as [H0|H0].
  - case_decide as Hr; [reflexivity|].
    rewrite lookup_empty. symmetry.
    rewrite (lookup_ge_None_2 rows (Z.to_nat i)) by lia. reflexivity.
  - rewrite decide_False by lia. apply lookup_empty.
Qed.

(** X15. The position map built with the index sends position [i] to the
    identifier of the [i]-th row of the file, for [0 <= i < n], and holds
    no other key: a negative position or one past the end raises. *)
Theorem X15_position_map_follows_rows rows (i : Z) :
  build_index_to_id_map rows !! i
  = if decide (0 <= i)%Z then internship_id <$> rows !! Z.to_nat i else None.
Proof. apply build_index_lookup. Qed.

Lemma in_range_resolves rows (idx : Z) :
  (0 <= idx < Z.of_nat (length rows))%Z ->
  exists row it,
    rows !! Z.to_nat idx = Some row
    /\ build_index_to_id_map rows !! idx = Some (internship_id row)
    /\ load_internships rows !! internship_id row = Some it.
Proof.
  intros Hr.
  destruct (lookup_lt_is_Some_2 rows (Z.to_nat idx)) as [row Hrow]; [lia|].
  assert (Hin : In row rows).
  { apply list_elem_of_In. eapply list_elem_of_lookup_2. exact Hrow. }
  destruct (load_internships_In rows row Hin) as [it Hit].
  exists row, it. split; [exact Hrow|]. split; [|exact Hit].
  rewrite build_index_lookup, decide_True by lia. rewrite Hrow. reflexivity.
Qed.

(** X16. Artifacts built from the rows the corpus is loaded from are in
    sync: when every position the index returns is -1 or below the number
    of rows, the query raises no [KeyError], and every candidate it
    returns is a row of the file, stored in the corpus under its own
    identifier. *)
Theorem X16_same_rows_never_raise index_search rows skills location interest :
  (forall sem idx, In (sem, idx) (index_search (student_text skills interest)) ->
     idx = (-1)%Z \/ (0 <= idx < Z.of_nat (length rows))%Z) ->
  exists in_loc glob,
    find_recommendations (engine_of index_search rows) skills location interest
    = inr (in_loc, glob)
    /\ (forall c, In c glob ->
          In (internship c) rows
          /\ load_internships rows !! internship_id (internship c)
             = Some (internship c)).
Proof.
  intros Hrange.
  assert (Hsync : forall sem idx,
             In (sem, idx) (index_search (student_text skills interest)) ->
             idx <> (-1)%Z ->
             exists iid it,
               index_to_id_map (engine_of index_search rows) !! idx = Some iid
               /\ all_internships_map (engine_of index_search rows) !! iid
                  = Some it).
  { intros sem idx Hin Hne.
    destruct (Hrange sem idx Hin) as [->|Hr]; [congruence|].
    destruct (in_range_resolves rows idx Hr) as (row & it & _ & H1 & H2).
    exists (internship_id row), it. auto. }
  destruct (resolve_hits_ok (engine_of index_search rows) _ Hsync) as [r Hr].
  rewrite find_recommendations_unfold. cbn [search engine_of] in Hr |- *.
  rewrite Hr. cbn. eexists _, _. split; [reflexivity|].
  intros c Hc.
  apply (Permutation_in _ (sort_desc_perm final_score _)) in Hc.
  apply in_map_iff in Hc. destruct Hc as ([sem it] & <- & Hin).
  apply (resolve_hits_In _ _ _ _ _ Hr) in Hin.
  destruct Hin as (idx & iid & _ & _ & _ & Hload).
  cbn [all_internships_map engine_of] in Hload.
  cbn [score_candidate internship snd].
  destruct (load_internships_Some _ _ _ Hload) as [Hrows Hid].
  split; [exact Hrows|]. rewrite Hid. exact Hload.
Qed.

Lemma X16_same_rows_never_raise_witness :
  exists in_loc glob,
    find_recommendations
      (engine_of (fun _ => Demo.hits)
         [Demo.data_intern; Demo.web_intern; Demo.ml_intern])
      "python" "remote" ""
    = inr (in_loc, glob).
Proof.
  destruct (X16_same_rows_never_raise (fun _ => Demo.hits)
              [Demo.data_intern; Demo.web_intern; Demo.ml_intern]
              "python" "remote" "") as (in_loc & glob & H & _).
  - intros sem idx Hin. cbn in Hin.
    destruct Hin as [H|[H|[H|[H|[]]]]]; injection H as <- <-;
      cbn; (left; reflexivity) || (right; lia).
  - exists in_loc, glob. exact H.
Defined.

Lemma NoDup_map_inj {A B} (f : A -> B) l x y :
  List.NoDup (map f l) -> In x l -> In y l -> f x = f y -> x = y.
Proof.
  induction l as [|a l IH]; intros Hnd Hx Hy Hf; [destruct Hx|].
  cbn in Hnd. apply List.NoDup_cons_iff in Hnd as [Hna Hnd].
  destruct Hx as [->|Hx], Hy as [->|Hy].
  - reflexivity.
  - exfalso. apply Hna. rewrite Hf. apply in_map. exact Hy.
  - exfalso. apply Hna. rewrite <- Hf. apply in_map. exact Hx.
  - exact (IH Hnd Hx Hy Hf).
Qed.

(** X17. When the identifiers of the file are pairwise distinct, a
    candidate is the very row at the position the index returned: each
    returned candidate is row [idx] for some hit [(sem, idx)]. *)
Theorem X17_distinct_ids_position_is_row
    index_search rows skills location interest in_loc glob :
  List.NoDup (map internship_id rows) ->
  find_recommendations (engine_of index_search rows) skills location interest
  = inr (in_loc, glob) ->
  forall c, In c glob ->
    exists sem idx,
      In (sem, idx) (index_search (student_text skills interest))
      /\ (0 <= idx)%Z
      /\ rows !! Z.to_nat idx = Some (internship c).
Proof.
  intros Hnd Hfind c Hc.
  rewrite find_recommendations_unfold in Hfind.
  destruct (resolve_hits (engine_of index_search rows) _) as [e|r] eqn:Hr;
    [discriminate|].
  cbn in Hfind. injection Hfind as _ <-.
  apply (Permutation_in _ (sort_desc_perm final_score _)) in Hc.
  apply in_map_iff in Hc. destruct Hc as ([sem it] & <- & Hin).
  apply (resolve_hits_In _ _ _ _ _ Hr) in Hin.
  destruct Hin as (idx & iid & Hhit & _ & Hpos & Hload).
  cbn [index_to_id_map all_internships_map engine_of search] in *.
  rewrite build_index_lookup in Hpos.
  destruct (decide (0 <= idx)%Z) as [H0|H0]; [|discriminate].
  destruct (rows !! Z.to_nat idx) as [row|] eqn:Hrow; [|discriminate].
  cbn in Hpos. injection Hpos as <-.
  destruct (load_internships_Some _ _ _ Hload) as [Hit Hid].
  assert (Hrin : In row rows).
  { apply list_elem_of_In. eapply list_elem_of_lookup_2. exact Hrow. }
  exists sem, idx. split; [exact Hhit|]. split; [exact H0|].
  cbn [score_candidate internship snd].
  rewrite (NoDup_map_inj internship_id rows it row Hnd Hit Hrin Hid).
  exact Hrow.
Qed.

Lemma X17_distinct_ids_position_is_row_witness :
  exists sem idx,
    In (sem, idx) Demo.hits /\ (0 <= idx)%Z
    /\ [Demo.data_intern; Demo.web_intern; Demo.ml_intern] !! Z.to_nat idx
       = Some Demo.ml_intern.
Proof.
  assert (Hrun : { p | find_recommendations
                         (engine_of (fun _ => Demo.hits)
                            [Demo.data_intern; Demo.web_intern;
                             Demo.ml_intern]) "python" "remote" ""
                       = inr p }).
  { eexists. vm_compute. reflexivity. }
  destruct Hrun as [[in_loc glob] Hrun].
  pose proof Hrun as Hval. vm_compute in Hval. injection Hval as _ Hglob.
  subst glob.
  match type of Hrun with
  | _ = inr (_, ?c :: _) =>
      apply (X17_distinct_ids_position_is_row (fun _ => Demo.hits)
               [Demo.data_intern; Demo.web_intern; Demo.ml_intern]
               "python" "remote" "" in_loc _
               ltac:(repeat constructor; cbn; intuition discriminate) Hrun c)
  end.
  left. reflexivity.
Defined.

(** ** The keyword overlap score *)

Lemma or_empty_Some s : or_empty (Some s) = s.
Proof. destruct s; reflexivity. Qed.

Lemma skill_set_tokens s : skill_set s = list_to_set (user_explicit_skills s).
Proof. reflexivity. Qed.

Lemma skill_set_nonempty s : skill_set s <> ∅.
Proof.
  rewrite skill_set_tokens.
  pose proof (user_explicit_skills_nonempty s) as Hne.
  destruct (user_explicit_skills s) as [|t ts]; [congruence|].
  intros H. assert (Ht : t ∈ (∅ : gset string)).
  { rewrite <- H. set_solver. }
  set_solver.
Qed.

Lemma Qofnat_eq n m : (Qofnat n == Qofnat m)%Q <-> n = m.
Proof.
  unfold Qofnat. rewrite inject_Z_injective. lia.
Qed.

Lemma Qofnat_ratio_one n m :
  0 < m -> ((Qofnat n / Qofnat m == 1)%Q <-> n = m).
Proof.
  intros Hm.
  assert (Hnz : ~ (Qofnat m == 0)%Q).
  { intros H. apply (Qofnat_eq m 0) in H. lia. }
  rewrite <- Qofnat_eq. split; intros H.
  - transitivity (Qofnat m * (Qofnat n / Qofnat m))%Q.
    + symmetry. apply Qmult_div_r. exact Hnz.
    + rewrite H. apply Qmult_1_r.
  - rewrite H. apply Qmult_inv_r. exact Hnz.
Qed.

Lemma Qofnat_ratio_zero n m :
  0 < m -> ((Qofnat n / Qofnat m == 0)%Q <-> n = 0).
Proof.
  intros Hm.
  assert (Hnz : ~ (Qofnat m == 0)%Q).
  { intros H. apply (Qofnat_eq m 0) in H. lia. }
  rewrite <- (Qofnat_eq n 0). split; intros H.
  - transitivity (Qofnat m * (Qofnat n / Qofnat m))%Q.
    + symmetry. apply Qmult_div_r. exact Hnz.
    + rewrite H. apply Qmult_0_r.
  - rewrite H. unfold Qdiv. apply Qmult_0_l.
Qed.

Lemma keyword_union_size a b :
  0 < size (skill_set a ∪ skill_set (or_empty b)).
Proof.
  assert (H : size (skill_set a ∪ skill_set (or_empty b)) <> 0).
  { apply size_non_empty_iff. intros He.
    apply (skill_set_nonempty a). apply leibniz_equiv. set_solver. }
  lia.
Qed.

Lemma calculate_keyword_score_ratio a b :
  calculate_keyword_score a b
  = (Qofnat (size (skill_set a ∩ skill_set (or_empty b)))
     / Qofnat (size (skill_set a ∪ skill_set (or_empty b))))%Q.
Proof.
  unfold calculate_keyword_score. cbv zeta. case_decide as He; [|reflexivity].
  exfalso. pose proof (keyword_union_size a b) as Hs.
  rewrite He, size_empty in Hs. lia.
Qed.

(** X18. The union of the two token sets is never empty (a split yields at
    least one token), so the score is always the ratio of the two sizes,
    the guard for an empty union never applies, and the score lies in
    [0, 1]. *)
Theorem X18_keyword_score_is_a_ratio a b :
  calculate_keyword_score a b
  = (Qofnat (size (skill_set a ∩ skill_set (or_empty b)))
     / Qofnat (size (skill_set a ∪ skill_set (or_empty b))))%Q
  /\ (0 <= calculate_keyword_score a b <= 1)%Q.
Proof.
  split; [apply calculate_keyword_score_ratio|].
  rewrite calculate_keyword_score_ratio.
  pose proof (keyword_union_size a b) as Hpos.
  assert (Hle : size (skill_set a ∩ skill_set (or_empty b))
                <= size (skill_set a ∪ skill_set (or_empty b))).
  { apply subseteq_size. set_solver. }
  split.
  - apply Qle_shift_div_l; [apply Qofnat_pos, Hpos|].
    rewrite Qmult_0_l. apply (Qofnat_le 0). lia.
  - apply Qle_shift_div_r; [apply Qofnat_pos, Hpos|].
    rewrite Qmult_1_l. apply Qofnat_le, Hle.
Qed.

(** X19. The score is symmetric in the two skills strings. *)
Theorem X19_keyword_score_symmetric a b :
  calculate_keyword_score a (Some b) = calculate_keyword_score b (Some a).
Proof.
  rewrite !calculate_keyword_score_ratio, !or_empty_Some.
  rewrite (intersection_comm_L (skill_set a)), (union_comm_L (skill_set a)).
  reflexivity.
Qed.

(** X20. The score is 1 exactly when the two strings have the same set of
    normalised tokens (order, repetition, case and surrounding blanks do
    not count), and 0 exactly when they share no token. *)
Theorem X20_keyword_score_extremes a b :
  ((calculate_keyword_score a b == 1)%Q
   <-> skill_set a = skill_set (or_empty b))
  /\ ((calculate_keyword_score a b == 0)%Q
      <-> skill_set a ∩ skill_set (or_empty b) = ∅).
Proof.
  rewrite calculate_keyword_score_ratio.
  pose proof (keyword_union_size a b) as Hpos.
  set (A := skill_set a) in *. set (B := skill_set (or_empty b)) in *.
  split.
  - rewrite (Qofnat_ratio_one _ _ Hpos). split.
    + intros Hsz.
      assert (Heq : A ∩ B = A ∪ B).
      { apply set_subseteq_size_eq; [set_solver | lia]. }
      apply leibniz_equiv. set_solver.
    + intros ->. f_equal. apply leibniz_equiv. set_solver.
  - rewrite (Qofnat_ratio_zero _ _ Hpos). split.
    + intros Hsz. apply leibniz_equiv, size_empty_iff. exact Hsz.
    + intros ->. apply size_empty.
Qed.

(** ** Exact tokens and the substring test *)

Lemma str_app_assoc (a b c : string) : (a +:+ b) +:+ c = a +:+ (b +:+ c).
Proof.
  induction a as [|x a IH]; [reflexivity|].
  change (String x ((a +:+ b) +:+ c) = String x (a +:+ (b +:+ c))).
  f_equal. exact IH.
Qed.

Lemma str_app_nil_r (a : string) : a +:+ "" = a.
Proof.
  induction a as [|x a IH]; [reflexivity|].
  change (String x (a +:+ "") = String x a). f_equal. exact IH.
Qed.

Lemma lower_app a b :
  PyStr.lower (a +:+ b) = PyStr.lower a +:+ PyStr.lower b.
Proof.
  induction a as [|x a IH]; [reflexivity|].
  change (String (PyStr.lower_char x) (PyStr.lower (a +:+ b))
          = String (PyStr.lower_char x) (PyStr.lower a +:+ PyStr.lower b)).
  f_equal. exact IH.
Qed.

Lemma split_head_prefix sep s t ts :
  PyStr.split sep s = t :: ts -> exists post, s = t +:+ post.
Proof.
  revert t ts; induction s as [|c s IH]; intros t ts H.
  - injection H as <- _. exists "". reflexivity.
  - simpl in H. destruct (Ascii.eqb c sep).
    + injection H as <- _. exists (String c s). reflexivity.
    + destruct (PyStr.split sep s) as [|t0 ts0] eqn:E.
      * injection H as <- _. exists s. reflexivity.
      * injection H as <- _. destruct (IH t0 ts0 eq_refl) as [post ->].
        exists post. reflexivity.
Qed.

Lemma split_In_substring sep s t :
  In t (PyStr.split sep s) -> exists pre post, s = pre +:+ t +:+ post.
Proof.
  revert t; induction s as [|c s IH]; intros t H.
  - destruct H as [<-|[]]. exists "", "". reflexivity.
  - simpl in H. destruct (Ascii.eqb c sep).
    + destruct H as [<-|H].
      * exists "", (String c s). reflexivity.
      * destruct (IH t H) as (pre & post & ->).
        exists (String c pre), post. reflexivity.
    + destruct (PyStr.split sep s) as [|t0 ts0] eqn:E.
      * destruct H as [<-|[]]. exists "", s. reflexivity.
      * destruct H as [<-|H].
        -- destruct (split_head_prefix sep s t0 ts0 E) as [post ->].
           exists "", post. reflexivity.
        -- destruct (IH t (or_intror H)) as (pre & post & ->).
           exists (String c pre), post. reflexivity.
Qed.

Lemma lstrip_suffix s : exists pre, s = pre +:+ PyStr.lstrip s.
Proof.
  induction s as [|c s [pre IH]]; [exists ""; reflexivity|].
  simpl. destruct (PyStr.is_space c).
  - exists (String c pre).
    change (String c s = String c (pre +:+ PyStr.lstrip s)).
    f_equal. exact IH.
  - exists "". reflexivity.
Qed.

Lemma rstrip_prefix s : exists post, s = PyStr.rstrip s +:+ post.
Proof.
  induction s as [|c s [post IH]]; [exists ""; reflexivity|].
  simpl. destruct (PyStr.rstrip s) as [|d r].
  - destruct (PyStr.is_space c).
    + exists (String c s). reflexivity.
    + exists s. reflexivity.
  - exists post. change (String c s = String c (String d r +:+ post)).
    f_equal. exact IH.
Qed.

Lemma strip_substring s : exists pre post, s = pre +:+ PyStr.strip s +:+ post.
Proof.
  destruct (lstrip_suffix s) as [pre Hpre].
  destruct (rstrip_prefix (PyStr.lstrip s)) as [post Hpost].
  exists pre, post. unfold PyStr.strip. rewrite <- Hpost. exact Hpre.
Qed.

(** A normalised token of a skills string occurs in the lowercased
    string. *)
Lemma token_contained s t :
  In t (user_explicit_skills s) -> PyStr.contains t (PyStr.lower s) = true.
Proof.
  unfold user_explicit_skills. intros H. apply in_map_iff in H.
  destruct H as (piece & <- & Hin).
  destruct (split_In_substring _ _ _ Hin) as (q1 & q2 & ->). clear Hin.
  destruct (strip_substring piece) as (p1 & p2 & Hp).
  apply PyStrFacts.contains_spec.
  exists (PyStr.lower (q1 +:+ p1)), (PyStr.lower (p2 +:+ q2)).
  rewrite <- !lower_app. f_equal.
  generalize dependent (PyStr.strip piece). intros sp ->.
  rewrite !str_app_assoc. reflexivity.
Qed.

(** X21. A user whose every skill token is, exactly, one of the listing's
    tokens gets the full boost 1: the substring test never misses an exact
    token match. *)
Theorem X21_exact_tokens_get_full_boost skills listing :
  (forall t, In t (user_explicit_skills skills) ->
             In t (user_explicit_skills listing)) ->
  (normalized_boost (user_explicit_skills skills) (PyStr.lower listing) == 1)%Q.
Proof.
  intros Hsub. apply normalized_boost_all_match.
  - apply user_explicit_skills_nonempty.
  - intros t Ht. apply token_contained, Hsub, Ht.
Qed.

Lemma X21_exact_tokens_get_full_boost_witness :
  (normalized_boost (user_explicit_skills " SQL,python")
     (PyStr.lower "Python, sql , Excel") == 1)%Q.
Proof.
  apply (X21_exact_tokens_get_full_boost " SQL,python" "Python, sql , Excel").
  intros t Ht. cbn in Ht. destruct Ht as [<-|[<-|[]]]; vm_compute; tauto.
Defined.

(** ** The analytics helper: lacking skills, prompt text, response clean-up *)

Lemma row_get_Skills it : row_get it "Skills" "" = Skills it.
Proof. destruct it. vm_compute. reflexivity. Qed.

Lemma row_get_Title it : row_get it "Title" "" = Title it.
Proof. destruct it. vm_compute. reflexivity. Qed.

Lemma row_get_Description it : row_get it "Description" "" = Description it.
Proof. destruct it. vm_compute. reflexivity. Qed.

Lemma skill_set_lower s : skill_set (PyStr.lower s) = skill_set s.
Proof. rewrite !skill_set_tokens, user_explicit_skills_lower. reflexivity. Qed.

(** X22. A skill the user states is never reported as lacking, however it
    is capitalised: the lacking set is disjoint from the user's tokens, it
    does not change when the user's string is lowercased, and it is empty
    exactly when every token of the listing is a token of the user. *)
Theorem X22_lacking_skills it user_skills_str :
  lacking_skills_set it user_skills_str ## skill_set user_skills_str
  /\ lacking_skills_set it (PyStr.lower user_skills_str)
     = lacking_skills_set it user_skills_str
  /\ (lacking_skills_set it user_skills_str = ∅
      <-> skill_set (Skills it) ⊆ skill_set user_skills_str).
Proof.
  unfold lacking_skills_set. cbv zeta. rewrite row_get_Skills, skill_set_lower.
  split; [set_solver|]. split; [reflexivity|].
  split; intros H.
  - intros t Ht. destruct (decide (t ∈ skill_set user_skills_str)) as [|Hn];
      [assumption|].
    exfalso. assert (Hl : t ∈ skill_set (Skills it) ∖ skill_set user_skills_str)
      by set_solver.
    rewrite H in Hl. set_solver.
  - apply leibniz_equiv. set_solver.
Qed.

(** X23. The prompt's description of the internship is the same for every
    record: it reads the keys "Internship Title" and "Internship
    Description", which no row has, so neither the title nor the
    description of the record reaches the prompt. *)
Theorem X23_prompt_omits_title_and_description it :
  internship_text it = "Title: " +:+ newline +:+ "Description: ".
Proof. destruct it. vm_compute. reflexivity. Qed.

Lemma rstrip_app_fixed a b :
  b <> "" -> PyStr.rstrip b = b -> PyStr.rstrip (a +:+ b) = a +:+ b.
Proof.
  intros Hne Hb. induction a as [|d a IH]; [exact Hb|].
  change (PyStr.rstrip (String d (a +:+ b)) = String d (a +:+ b)).
  cbn [PyStr.rstrip]. rewrite IH.
  destruct (a +:+ b) eqn:E; [|reflexivity].
  destruct a; [contradiction | discriminate].
Qed.

Lemma rstrip_app_blank a b :
  PyStr.rstrip b = "" -> PyStr.rstrip (a +:+ b) = PyStr.rstrip a.
Proof.
  intros Hb. induction a as [|d a IH]; [exact Hb|].
  change (PyStr.rstrip (String d (a +:+ b)) = PyStr.rstrip (String d a)).
  cbn [PyStr.rstrip]. rewrite IH. reflexivity.
Qed.

Lemma ends_with_app a suf : PySlice.ends_with suf (a +:+ suf) = true.
Proof.
  induction a as [|d a IH].
  - change (PySlice.ends_with suf suf = true).
    destruct suf; cbn [PySlice.ends_with]; rewrite String.eqb_refl;
      reflexivity.
  - change (PySlice.ends_with suf (String d (a +:+ suf)) = true).
    cbn [PySlice.ends_with]. rewrite IH. apply orb_true_r.
Qed.

Lemma str_length_app a b :
  String.length (a +:+ b) = String.length a + String.length b.
Proof.
  induction a as [|d a IH]; [reflexivity|].
  change (S (String.length (a +:+ b)) = S (String.length a + String.length b)).
  f_equal. exact IH.
Qed.

Lemma take_app a b : PySlice.take (String.length a) (a +:+ b) = a.
Proof.
  induction a as [|d a IH]; [destruct b; reflexivity|].
  change (String d (PySlice.take (String.length a) (a +:+ b)) = String d a).
  f_equal. exact IH.
Qed.

Lemma drop_last_app a b : PySlice.drop_last (String.length b) (a +:+ b) = a.
Proof.
  unfold PySlice.drop_last. rewrite str_length_app.
  replace (String.length a + String.length b - String.length b)
    with (String.length a) by lia.
  apply take_app.
Qed.

Lemma strip_fixed_parts s :
  PyStr.strip s = s -> PyStr.lstrip s = s /\ PyStr.rstrip s = s.
Proof.
  intros H.
  assert (Hl : PyStr.lstrip s = s).
  { apply lstrip_fixed. intros c t E. apply (strip_head s c t). congruence. }
  split; [exact Hl|]. unfold PyStr.strip in H. rewrite Hl in H. exact H.
Qed.

(** X24. The clean-up recovers a fenced answer: for a body without blanks
    at its ends, the text made of the fence [```json], a line break, the
    body, a line break and the closing fence is cleaned to the body. *)
Theorem X24_fenced_response_is_unwrapped body :
  PyStr.strip body = body ->
  clean_response
    ("```json" +:+ newline +:+ body +:+ newline +:+ "```")
  = body.
Proof.
  intros Hbody. destruct (strip_fixed_parts body Hbody) as [Hl Hr].
  set (inner := newline +:+ body +:+ newline).
  assert (Hfenced : "```json" +:+ newline +:+ body +:+ newline +:+ "```"
                    = ("```json" +:+ inner) +:+ "```").
  { unfold inner. rewrite !str_app_assoc. reflexivity. }
  unfold clean_response. cbv zeta.
  assert (Hstrip : PyStr.strip (("```json" +:+ inner) +:+ "```")
                   = ("```json" +:+ inner) +:+ "```").
  { unfold PyStr.strip.
    replace (PyStr.lstrip (("```json" +:+ inner) +:+ "```"))
      with (("```json" +:+ inner) +:+ "```") by reflexivity.
    apply rstrip_app_fixed; [discriminate | reflexivity]. }
  rewrite Hfenced, Hstrip.
  replace (PyStr.starts_with "```json" (("```json" +:+ inner) +:+ "```"))
    with true by reflexivity.
  replace (PySlice.drop 7 (("```json" +:+ inner) +:+ "```"))
    with (inner +:+ "```") by reflexivity.
  rewrite ends_with_app.
  replace (PySlice.drop_last 3 (inner +:+ "```")) with inner
    by (symmetry; exact (drop_last_app inner "```")).
  unfold inner, PyStr.strip.
  replace (PyStr.lstrip (newline +:+ body +:+ newline))
    with (PyStr.lstrip (body +:+ newline)) by reflexivity.
  destruct body as [|c t]; [reflexivity|].
  rewrite lstrip_fixed.
  - rewrite rstrip_app_blank by reflexivity. exact Hr.
  - intros c' t' E.
    change (String c (t +:+ newline) = String c' t') in E.
    injection E as <- _. exact (strip_head _ _ _ Hbody).
Qed.

Lemma X24_fenced_response_is_unwrapped_witness :
  clean_response ("```json" +:+ newline +:+ "{ }" +:+ newline +:+ "```")
  = "{ }".
Proof.
  apply (X24_fenced_response_is_unwrapped "{ }"). reflexivity.
Defined.

(** ** The text that is embedded *)

(** X25. The text embedded for a record contains the record's title, its
    description and its skills verbatim. *)
Theorem X25_embedded_text_has_all_fields it :
  PyStr.contains (Title it) (create_internship_text it) = true
  /\ PyStr.contains (Description it) (create_internship_text it) = true
  /\ PyStr.contains (Skills it) (create_internship_text it) = true.
Proof.
  unfold create_internship_text. cbv zeta.
  rewrite row_get_Title, row_get_Skills, row_get_Description.
  split; [|split]; apply PyStrFacts.contains_spec.
  - eexists "Internship Title: ", _. reflexivity.
  - exists ("Internship Title: " +:+ Title it +:+ ". Description: "),
      (". Required skills: " +:+ Skills it +:+ ".").
    rewrite !str_app_assoc. reflexivity.
  - exists ("Internship Title: " +:+ Title it +:+ ". Description: " +:+
            Description it +:+ ". Required skills: "), ".".
    rewrite !str_app_assoc. reflexivity.
Qed.

(** ** The analytics view *)

Lemma engine_of_candidates index_search rows skills location interest
    in_loc glob c :
  find_recommendations (engine_of index_search rows) skills location interest
  = inr (in_loc, glob) ->
  In c glob ->
  load_internships rows !! internship_id (internship c) = Some (internship c).
Proof.
  intros Hfind Hc. rewrite find_recommendations_unfold in Hfind.
  destruct (resolve_hits (engine_of index_search rows) _) as [e|r] eqn:Hr;
    [discriminate|].
  cbn in Hfind. injection Hfind as _ <-.
  apply (Permutation_in _ (sort_desc_perm final_score _)) in Hc.
  apply in_map_iff in Hc. destruct Hc as ([sem it] & <- & Hin).
  apply (resolve_hits_In _ _ _ _ _ Hr) in Hin.
  destruct Hin as (idx & iid & _ & _ & _ & Hload).
  cbn [all_internships_map engine_of] in Hload.
  cbn [score_candidate internship snd].
  destruct (load_internships_Some _ _ _ Hload) as [_ Hid].
  rewrite Hid. exact Hload.
Qed.

(** X26. An identifier that no row of the file carries is answered 404
    "Internship not found.", whatever the explanation service would
    return; the service is not consulted. *)
Theorem X26_unknown_id_is_404 {P} index_search rows
    (get_analytics : Internship -> string
                     -> InternshipAnalyticsView.AnalyticsResult P)
    (query_params : gmap string string) :
  query_param query_params "id" <> "" ->
  query_param query_params "skills" <> "" ->
  ~ In (query_param query_params "id") (map internship_id rows) ->
  InternshipAnalyticsView.get (engine_of index_search rows) get_analytics
    query_params
  = (404%Z, InternshipAnalyticsView.ErrorBody "Internship not found.").
Proof.
  intros Hid Hsk Hnot. unfold InternshipAnalyticsView.get. cbv zeta.
  apply truthy_true in Hid, Hsk. rewrite Hid, Hsk. cbn [negb orb].
  cbn [all_internships_map engine_of].
  destruct (load_internships rows !! query_param query_params "id")
    as [it|] eqn:E; [|reflexivity].
  exfalso. apply Hnot. destruct (load_internships_Some _ _ _ E) as [Hin <-].
  apply in_map. exact Hin.
Qed.

Lemma X26_unknown_id_is_404_witness :
  InternshipAnalyticsView.get
    (engine_of (fun _ => Demo.hits) [Demo.data_intern; Demo.web_intern])
    (fun _ _ => InternshipAnalyticsView.AnalyticsData 0)
    (<["id" := "3"]> (<["skills" := "python"]> ∅))
  = (404%Z, InternshipAnalyticsView.ErrorBody "Internship not found.").
Proof.
  apply (X26_unknown_id_is_404 (fun _ => Demo.hits)
           [Demo.data_intern; Demo.web_intern]).
  - vm_compute. discriminate.
  - vm_compute. discriminate.
  - vm_compute. intros [H|[H|[]]]; discriminate.
Defined.

(** X27. Every internship the engine recommends can be analysed: for an
    engine over a loaded file, the analytics view, asked for the
    identifier of a returned candidate (a non-empty one) with non-empty
    skills, hands exactly that candidate's record to the explanation
    service and answers 200 with its roadmap, or 500 with its error; never
    400 nor 404. *)
Theorem X27_recommended_can_be_analysed {P} index_search rows
    skills location interest in_loc glob c
    (get_analytics : Internship -> string
                     -> InternshipAnalyticsView.AnalyticsResult P)
    (query_params : gmap string string) :
  find_recommendations (engine_of index_search rows) skills location interest
  = inr (in_loc, glob) ->
  In c glob ->
  query_param query_params "id" = internship_id (internship c) ->
  internship_id (internship c) <> "" ->
  query_param query_params "skills" <> "" ->
  InternshipAnalyticsView.get (engine_of index_search rows) get_analytics
    query_params
  = match get_analytics (internship c)
            (query_param query_params "skills") with
    | InternshipAnalyticsView.AnalyticsError e =>
        (500%Z, InternshipAnalyticsView.ErrorBody e)
    | InternshipAnalyticsView.AnalyticsData p =>
        (200%Z, InternshipAnalyticsView.DataBody p)
    end.
Proof.
  intros Hfind Hc Hid Hne Hsk.
  pose proof (engine_of_candidates _ _ _ _ _ _ _ _ Hfind Hc) as Hload.
  unfold InternshipAnalyticsView.get. cbv zeta. rewrite Hid.
  apply truthy_true in Hne, Hsk. rewrite Hne, Hsk. cbn [negb orb].
  cbn [all_internships_map engine_of]. rewrite Hload. reflexivity.
Qed.

Lemma X27_recommended_can_be_analysed_witness :
  InternshipAnalyticsView.get
    (engine_of (fun _ => Demo.hits)
       [Demo.data_intern; Demo.web_intern; Demo.ml_intern])
    (fun it _ => InternshipAnalyticsView.AnalyticsData (Title it))
    (<["id" := "3"]> (<["skills" := "python"]> ∅))
  = (200%Z, InternshipAnalyticsView.DataBody "ML Intern").
Proof.
  assert (Hrun : { p | find_recommendations
                         (engine_of (fun _ => Demo.hits)
                            [Demo.data_intern; Demo.web_intern;
                             Demo.ml_intern]) "python" "remote" ""
                       = inr p }).
  { eexists. vm_compute. reflexivity. }
  destruct Hrun as [[in_loc glob] Hrun].
  pose proof Hrun as Hval. vm_compute in Hval. injection Hval as _ Hglob.
  subst glob.
  match type of Hrun with
  | _ = inr (_, ?c :: _) =>
      apply (X27_recommended_can_be_analysed (fun _ => Demo.hits)
               [Demo.data_intern; Demo.web_intern; Demo.ml_intern]
               "python" "remote" "" in_loc _ c
               (fun it _ => InternshipAnalyticsView.AnalyticsData (Title it))
               (<["id" := "3"]> (<["skills" := "python"]> ∅)) Hrun)
  end.
  - left. reflexivity.
  - vm_compute. reflexivity.
  - vm_compute. discriminate.
  - vm_compute. discriminate.
Defined.

(** ** The query text *)

(** X28. The text that is embedded for a query contains the skills string
    verbatim, and the interest string too when one is given. *)
Theorem X28_query_text_has_skills_and_interest skills interest :
  PyStr.contains skills (student_text skills interest) = true
  /\ (interest <> "" ->
      PyStr.contains interest (student_text skills interest) = true).
Proof.
  unfold student_text. split.
  - apply PyStrFacts.contains_spec.
    destruct (PyStr.truthy interest); eexists "A student with key skills in: ", _;
      reflexivity.
  - intros Hne. apply truthy_true in Hne. rewrite Hne.
    apply PyStrFacts.contains_spec.
    exists ("A student with key skills in: " +:+ skills +:+
            ". They are interested in an internship where they can "), ".".
    rewrite !str_app_assoc. reflexivity.
Qed.

Lemma X28_query_text_has_skills_and_interest_witness :
  PyStr.contains "build compilers" (student_text "ocaml" "build compilers")
  = true.
Proof.
  apply (proj2 (X28_query_text_has_skills_and_interest
                  "ocaml" "build compilers")).
  discriminate.
Defined.
